(** * Smart Study Buddy: the chat client's query/upload lifecycle

    A shallow embedding of the client logic of [App] (session, conversation,
    response synthesis) and of [ChatInterface] (submit and upload handlers,
    upload notifications, the status-message timers), followed by the
    properties the specification states about them.

    [ChatInterface] is taken in its revision with the processing flag and
    the status-message effect.  Strings are sequences of UTF-8 bytes.  A
    value received from the backend is a JSON document; run-time values of
    the client are JSON values, [undefined], or a built-in method read off
    a prototype. *)

From Stdlib Require Import ZArith String Ascii DecimalString.
From Stdlib Require DecimalFacts DecimalPos DecimalNat DecimalZ.
From stdpp Require Import base list strings.

Set Warnings "-register-all".
Local Open Scope string_scope.
Local Open Scope list_scope.

(* ===================================================================== *)
(** ** Results of computations that may throw *)

Inductive res (A : Type) : Type :=
| Ok (a : A)
| Throw.
Arguments Ok {A} a.
Arguments Throw {A}.

Definition bind {A B} (r : res A) (k : A -> res B) : res B :=
  match r with
  | Ok a => k a
  | Throw => Throw
  end.

Notation "x <- e1 ;; e2" := (bind e1 (fun x => e2))
  (at level 100, e1 at next level, right associativity).

(* ===================================================================== *)
(** ** JavaScript values *)

(** A parsed JSON document.  A number is carried by the decimal text that
    JavaScript prints for it (so [0] and [-0] are both ["0"], and an
    overflowing literal is ["Infinity"]); an object by its own properties
    in enumeration order. *)
Inductive json : Type :=
| JNull
| JBool (b : bool)
| JNum (repr : string)
| JStr (s : string)
| JArr (items : list json)
| JObj (fields : list (string * json)).

Inductive value : Type :=
| Undefined
| Json (j : json)
| NativeFn (name : string).

Definition nl : string := String "010" "".

Fixpoint lookupField (k : string) (fs : list (string * json)) : option json :=
  match fs with
  | [] => None
  | (k', v) :: rest => if String.eqb k k' then Some v else lookupField k rest
  end.

(** [v.k] for the property names this program reads ([type], [summaries],
    [results], [serp_results], [expert_summary], [core_keyword],
    [response], [file], [summary], [pages], [page], [relevance_score],
    [preview_summary], [title], [link], [snippet], [session_id],
    [message], [pages_extracted], [chunks_created]).  Reading a property of
    [null] throws; a string inherits the method [link] from its prototype;
    no other prototype carries one of these names. *)
Definition getProp (v : json) (k : string) : res value :=
  match v with
  | JNull => Throw
  | JObj fs =>
      match lookupField k fs with
      | Some j => Ok (Json j)
      | None => Ok Undefined
      end
  | JStr _ => if String.eqb k "link" then Ok (NativeFn "link") else Ok Undefined
  | _ => Ok Undefined
  end.

(** Truthiness, as tested by [!x] and [x || y]. *)
Definition truthy (v : value) : bool :=
  match v with
  | Undefined => false
  | Json JNull => false
  | Json (JBool b) => b
  | Json (JNum r) => negb (String.eqb r "0")
  | Json (JStr s) => negb (String.eqb s "")
  | Json (JArr _) => true
  | Json (JObj _) => true
  | NativeFn _ => true
  end.

Definition nullish (v : value) : bool :=
  match v with
  | Undefined => true
  | Json JNull => true
  | _ => false
  end.

(** [Array.prototype.join]: a [null] element contributes the empty
    string, any other element its string conversion. *)
Definition joinWith (f : json -> res string) (sep : string) : list json -> res string :=
  fix go (l : list json) : res string :=
    match l with
    | [] => Ok ""
    | x :: rest =>
        e <- match x with JNull => Ok "" | _ => f x end ;;
        match rest with
        | [] => Ok e
        | _ => r <- go rest ;; Ok (e +:+ sep +:+ r)
        end
    end.

(** String conversion of a JSON value, as performed by a template literal.
    An object answers ["[object Object]"] through the inherited
    [toString]; an own property of that name is not callable and the
    conversion throws. *)
Fixpoint jsonToString (j : json) : res string :=
  match j with
  | JNull => Ok "null"
  | JBool true => Ok "true"
  | JBool false => Ok "false"
  | JNum r => Ok r
  | JStr s => Ok s
  | JArr l => joinWith jsonToString "," l
  | JObj fs =>
      match lookupField "toString" fs with
      | Some _ => Throw
      | None => Ok "[object Object]"
      end
  end.

Definition toString (v : value) : res string :=
  match v with
  | Undefined => Ok "undefined"
  | Json j => jsonToString j
  | NativeFn name => Ok ("function " +:+ name +:+ "() { [native code] }")
  end.

(* --------------------------------------------------------------------- *)
(** *** [JSON.stringify] *)

Definition hexDigit (n : N) : ascii :=
  if (n <? 10)%N then ascii_of_N (48 + n) else ascii_of_N (87 + n).

Definition escapeChar (c : ascii) : string :=
  let n := N_of_ascii c in
  if (n =? 34)%N then String "092" (String "034" "")
  else if (n =? 92)%N then "\\"
  else if (n =? 8)%N then "\b"
  else if (n =? 9)%N then "\t"
  else if (n =? 10)%N then "\n"
  else if (n =? 12)%N then "\f"
  else if (n =? 13)%N then "\r"
  else if (n <? 32)%N then
    "\u00" +:+ String (hexDigit (n / 16)) (String (hexDigit (n mod 16)) "")
  else String c "".

Fixpoint escapeString (s : string) : string :=
  match s with
  | "" => ""
  | String c rest => escapeChar c +:+ escapeString rest
  end.

Definition quoteJSON (s : string) : string :=
  String "034" (escapeString s +:+ String "034" "").

Fixpoint commaSep (l : list string) : string :=
  match l with
  | [] => ""
  | [x] => x
  | x :: rest => x +:+ "," +:+ commaSep rest
  end.

Fixpoint JSON_stringify (j : json) : string :=
  match j with
  | JNull => "null"
  | JBool true => "true"
  | JBool false => "false"
  | JNum r =>
      if String.eqb r "Infinity" || String.eqb r "-Infinity" then "null" else r
  | JStr s => quoteJSON s
  | JArr l => "[" +:+ commaSep (List.map JSON_stringify l) +:+ "]"
  | JObj fs =>
      "{" +:+ commaSep (List.map (fun kv => quoteJSON (fst kv) +:+ ":" +:+ JSON_stringify (snd kv)) fs) +:+ "}"
  end.

(* ===================================================================== *)
(** ** Response synthesis ([handleSubmitQuery], the dispatch on [data.type]) *)

Definition decimal (n : nat) : string := NilEmpty.string_of_uint (Nat.to_uint n).

(** [`${o.k}`]: read the property, then convert it to a string. *)
Definition field (o : json) (k : string) : res string :=
  v <- getProp o k ;; toString v.

(** [xs.map((x, idx) => f(idx, x))] on an array. *)
Fixpoint mapIdx (f : nat -> json -> res string) (idx : nat) (l : list json)
  : res (list string) :=
  match l with
  | [] => Ok []
  | x :: rest =>
      y <- f idx x ;;
      ys <- mapIdx f (S idx) rest ;;
      Ok (y :: ys)
  end.

(** [v.map(f)]: only an array has a callable [map]. *)
Definition callMap (v : value) (f : nat -> json -> res string) : res (list string) :=
  match v with
  | Json (JArr l) => mapIdx f 0 l
  | _ => Throw
  end.

(** [s.pages?.join(', ')] *)
Definition pagesJoin (p : value) : res value :=
  if nullish p then Ok Undefined
  else match p with
       | Json (JArr l) => s <- joinWith jsonToString ", " l ;; Ok (Json (JStr s))
       | _ => Throw
       end.

Definition fullSummaryBlock (idx : nat) (s : json) : res string :=
  file <- field s "file" ;;
  summary <- field s "summary" ;;
  Ok ("**" +:+ file +:+ "**" +:+ nl +:+ nl +:+ summary).

Definition pageSummaryBlock (idx : nat) (s : json) : res string :=
  file <- field s "file" ;;
  pages <- (p <- getProp s "pages" ;; j <- pagesJoin p ;; toString j) ;;
  summary <- field s "summary" ;;
  Ok ("**" +:+ file +:+ " - Pages " +:+ pages +:+ "**" +:+ nl +:+ nl +:+ summary).

Definition conceptItem (idx : nat) (r : json) : res string :=
  file <- field r "file" ;;
  page <- field r "page" ;;
  score <- field r "relevance_score" ;;
  preview <- field r "preview_summary" ;;
  Ok (decimal (idx + 1) +:+ ". **" +:+ file +:+ " - Page " +:+ page +:+ "** (Relevance: "
      +:+ score +:+ ")" +:+ nl +:+ preview).

Definition serpItem (idx : nat) (r : json) : res string :=
  title <- field r "title" ;;
  link <- field r "link" ;;
  snippet <- (v <- getProp r "snippet" ;; if truthy v then toString v else Ok "") ;;
  Ok (decimal (idx + 1) +:+ ". [" +:+ title +:+ "](" +:+ link +:+ ")" +:+ nl +:+ snippet).

(** The expert-summary / core-keyword preamble shared by [concept_search]
    and [serp_fallback]; [heading] is the last line's title. *)
Definition preamble (data : json) (heading : string) : res string :=
  expert <- field data "expert_summary" ;;
  keyword <- field data "core_keyword" ;;
  Ok ("**Expert Summary:**" +:+ nl +:+ expert +:+ nl +:+ nl +:+ "**Core Keyword:** "
      +:+ keyword +:+ nl +:+ nl +:+ heading +:+ nl +:+ nl).

Definition divider : string := nl +:+ nl +:+ "---" +:+ nl +:+ nl.

(** [t === tag] *)
Definition isType (t : value) (tag : string) : bool :=
  match t with
  | Json (JStr s) => String.eqb s tag
  | _ => false
  end.

(** The value assigned to [responseText] for the parsed reply [data]. *)
Definition responseText (data : json) : res value :=
  t <- getProp data "type" ;;
  if isType t "full_pdf_summary" then
    summaries <- getProp data "summaries" ;;
    blocks <- callMap summaries fullSummaryBlock ;;
    Ok (Json (JStr (String.concat divider blocks)))
  else if isType t "page_summary" then
    summaries <- getProp data "summaries" ;;
    blocks <- callMap summaries pageSummaryBlock ;;
    Ok (Json (JStr (String.concat divider blocks)))
  else if isType t "concept_search" then
    head <- preamble data "**Relevant Results:**" ;;
    results <- getProp data "results" ;;
    items <- callMap results conceptItem ;;
    Ok (Json (JStr (head +:+ String.concat (nl +:+ nl) items)))
  else if isType t "serp_fallback" then
    head <- preamble data "**Web Results:**" ;;
    results <- getProp data "serp_results" ;;
    listing <- (if nullish results then Ok Undefined
                else items <- callMap results serpItem ;;
                     Ok (Json (JStr (String.concat (nl +:+ nl) items)))) ;;
    tail <- (if truthy listing then toString listing else Ok "No results found.") ;;
    Ok (Json (JStr (head +:+ tail)))
  else if isType t "error" then
    getProp data "response"
  else
    r <- getProp data "response" ;;
    if truthy r then Ok r else Ok (Json (JStr (JSON_stringify data))).

(* ===================================================================== *)
(** ** Data model *)

Record Message : Type := {
  msg_id : string;
  msg_query : string;
  msg_response : value;
  msg_timestamp : Z
}.

Record UploadStatus : Type := {
  us_id : string;
  us_filename : string;
  us_message : value;
  us_pagesExtracted : value;
  us_chunksCreated : value;
  us_timestamp : Z
}.

(** The selected file, as far as the client looks at it. *)
Record File : Type := {
  file_name : string;
  file_type : string
}.

(** A pending [setTimeout] callback; every callback of this program sets
    the status message. *)
Record Timer : Type := {
  timer_handle : nat;
  timer_due : Z;
  timer_message : string
}.

(** The state of the running client: the [useState] cells of [App] and of
    [ChatInterface], and what the run time holds for them: the clock (in
    milliseconds), the timer queue (earliest first), the handles captured
    by the cleanup of the status-message effect, and the continuations
    suspended on a network call.  The continuation of a query holds the
    [query] and the [messages] of the render it was started from. *)
Record World : Type := {
  messages : list Message;
  currentQuery : string;
  sessionId : value;
  query : string;
  isUploading : bool;
  isProcessingQuery : bool;
  uploadStatuses : list UploadStatus;
  uploadingFile : option string;
  processingMessage : string;
  clock : Z;
  timers : list Timer;
  nextTimer : nat;
  effectTimers : list nat;
  pendingQuery : option (string * list Message);
  pendingUpload : option File;
  pendingSessions : nat
}.

Definition set_messages (v : list Message) (w : World) : World :=
  {| messages := v; currentQuery := currentQuery w; sessionId := sessionId w;
     query := query w; isUploading := isUploading w;
     isProcessingQuery := isProcessingQuery w;
     uploadStatuses := uploadStatuses w; uploadingFile := uploadingFile w;
     processingMessage := processingMessage w; clock := clock w;
     timers := timers w; nextTimer := nextTimer w;
     effectTimers := effectTimers w; pendingQuery := pendingQuery w;
     pendingUpload := pendingUpload w;
     pendingSessions := pendingSessions w |}.

Definition set_currentQuery (v : string) (w : World) : World :=
  {| messages := messages w; currentQuery := v; sessionId := sessionId w;
     query := query w; isUploading := isUploading w;
     isProcessingQuery := isProcessingQuery w;
     uploadStatuses := uploadStatuses w; uploadingFile := uploadingFile w;
     processingMessage := processingMessage w; clock := clock w;
     timers := timers w; nextTimer := nextTimer w;
     effectTimers := effectTimers w; pendingQuery := pendingQuery w;
     pendingUpload := pendingUpload w;
     pendingSessions := pendingSessions w |}.

Definition set_sessionId (v : value) (w : World) : World :=
  {| messages := messages w; currentQuery := currentQuery w; sessionId := v;
     query := query w; isUploading := isUploading w;
     isProcessingQuery := isProcessingQuery w;
     uploadStatuses := uploadStatuses w; uploadingFile := uploadingFile w;
     processingMessage := processingMessage w; clock := clock w;
     timers := timers w; nextTimer := nextTimer w;
     effectTimers := effectTimers w; pendingQuery := pendingQuery w;
     pendingUpload := pendingUpload w;
     pendingSessions := pendingSessions w |}.

Definition set_query (v : string) (w : World) : World :=
  {| messages := messages w; currentQuery := currentQuery w;
     sessionId := sessionId w; query := v; isUploading := isUploading w;
     isProcessingQuery := isProcessingQuery w;
     uploadStatuses := uploadStatuses w; uploadingFile := uploadingFile w;
     processingMessage := processingMessage w; clock := clock w;
     timers := timers w; nextTimer := nextTimer w;
     effectTimers := effectTimers w; pendingQuery := pendingQuery w;
     pendingUpload := pendingUpload w;
     pendingSessions := pendingSessions w |}.

Definition set_isUploading (v : bool) (w : World) : World :=
  {| messages := messages w; currentQuery := currentQuery w;
     sessionId := sessionId w; query := query w; isUploading := v;
     isProcessingQuery := isProcessingQuery w;
     uploadStatuses := uploadStatuses w; uploadingFile := uploadingFile w;
     processingMessage := processingMessage w; clock := clock w;
     timers := timers w; nextTimer := nextTimer w;
     effectTimers := effectTimers w; pendingQuery := pendingQuery w;
     pendingUpload := pendingUpload w;
     pendingSessions := pendingSessions w |}.

Definition set_isProcessingQuery (v : bool) (w : World) : World :=
  {| messages := messages w; currentQuery := currentQuery w;
     sessionId := sessionId w; query := query w;
     isUploading := isUploading w; isProcessingQuery := v;
     uploadStatuses := uploadStatuses w; uploadingFile := uploadingFile w;
     processingMessage := processingMessage w; clock := clock w;
     timers := timers w; nextTimer := nextTimer w;
     effectTimers := effectTimers w; pendingQuery := pendingQuery w;
     pendingUpload := pendingUpload w;
     pendingSessions := pendingSessions w |}.

Definition set_uploadStatuses (v : list UploadStatus) (w : World) : World :=
  {| messages := messages w; currentQuery := currentQuery w;
     sessionId := sessionId w; query := query w;
     isUploading := isUploading w; isProcessingQuery := isProcessingQuery w;
     uploadStatuses := v; uploadingFile := uploadingFile w;
     processingMessage := processingMessage w; clock := clock w;
     timers := timers w; nextTimer := nextTimer w;
     effectTimers := effectTimers w; pendingQuery := pendingQuery w;
     pendingUpload := pendingUpload w;
     pendingSessions := pendingSessions w |}.

Definition set_uploadingFile (v : option string) (w : World) : World :=
  {| messages := messages w; currentQuery := currentQuery w;
     sessionId := sessionId w; query := query w;
     isUploading := isUploading w; isProcessingQuery := isProcessingQuery w;
     uploadStatuses := uploadStatuses w; uploadingFile := v;
     processingMessage := processingMessage w; clock := clock w;
     timers := timers w; nextTimer := nextTimer w;
     effectTimers := effectTimers w; pendingQuery := pendingQuery w;
     pendingUpload := pendingUpload w;
     pendingSessions := pendingSessions w |}.

Definition set_processingMessage (v : string) (w : World) : World :=
  {| messages := messages w; currentQuery := currentQuery w;
     sessionId := sessionId w; query := query w;
     isUploading := isUploading w; isProcessingQuery := isProcessingQuery w;
     uploadStatuses := uploadStatuses w; uploadingFile := uploadingFile w;
     processingMessage := v; clock := clock w; timers := timers w;
     nextTimer := nextTimer w; effectTimers := effectTimers w;
     pendingQuery := pendingQuery w; pendingUpload := pendingUpload w;
     pendingSessions := pendingSessions w |}.

Definition set_clock (v : Z) (w : World) : World :=
  {| messages := messages w; currentQuery := currentQuery w;
     sessionId := sessionId w; query := query w;
     isUploading := isUploading w; isProcessingQuery := isProcessingQuery w;
     uploadStatuses := uploadStatuses w; uploadingFile := uploadingFile w;
     processingMessage := processingMessage w; clock := v;
     timers := timers w; nextTimer := nextTimer w;
     effectTimers := effectTimers w; pendingQuery := pendingQuery w;
     pendingUpload := pendingUpload w;
     pendingSessions := pendingSessions w |}.

Definition set_timers (v : list Timer) (w : World) : World :=
  {| messages := messages w; currentQuery := currentQuery w;
     sessionId := sessionId w; query := query w;
     isUploading := isUploading w; isProcessingQuery := isProcessingQuery w;
     uploadStatuses := uploadStatuses w; uploadingFile := uploadingFile w;
     processingMessage := processingMessage w; clock := clock w; timers := v;
     nextTimer := nextTimer w; effectTimers := effectTimers w;
     pendingQuery := pendingQuery w; pendingUpload := pendingUpload w;
     pendingSessions := pendingSessions w |}.

Definition set_nextTimer (v : nat) (w : World) : World :=
  {| messages := messages w; currentQuery := currentQuery w;
     sessionId := sessionId w; query := query w;
     isUploading := isUploading w; isProcessingQuery := isProcessingQuery w;
     uploadStatuses := uploadStatuses w; uploadingFile := uploadingFile w;
     processingMessage := processingMessage w; clock := clock w;
     timers := timers w; nextTimer := v; effectTimers := effectTimers w;
     pendingQuery := pendingQuery w; pendingUpload := pendingUpload w;
     pendingSessions := pendingSessions w |}.

Definition set_effectTimers (v : list nat) (w : World) : World :=
  {| messages := messages w; currentQuery := currentQuery w;
     sessionId := sessionId w; query := query w;
     isUploading := isUploading w; isProcessingQuery := isProcessingQuery w;
     uploadStatuses := uploadStatuses w; uploadingFile := uploadingFile w;
     processingMessage := processingMessage w; clock := clock w;
     timers := timers w; nextTimer := nextTimer w; effectTimers := v;
     pendingQuery := pendingQuery w; pendingUpload := pendingUpload w;
     pendingSessions := pendingSessions w |}.

Definition set_pendingQuery (v : option (string * list Message)) (w : World) : World :=
  {| messages := messages w; currentQuery := currentQuery w;
     sessionId := sessionId w; query := query w;
     isUploading := isUploading w; isProcessingQuery := isProcessingQuery w;
     uploadStatuses := uploadStatuses w; uploadingFile := uploadingFile w;
     processingMessage := processingMessage w; clock := clock w;
     timers := timers w; nextTimer := nextTimer w;
     effectTimers := effectTimers w; pendingQuery := v;
     pendingUpload := pendingUpload w;
     pendingSessions := pendingSessions w |}.

Definition set_pendingUpload (v : option File) (w : World) : World :=
  {| messages := messages w; currentQuery := currentQuery w;
     sessionId := sessionId w; query := query w;
     isUploading := isUploading w; isProcessingQuery := isProcessingQuery w;
     uploadStatuses := uploadStatuses w; uploadingFile := uploadingFile w;
     processingMessage := processingMessage w; clock := clock w;
     timers := timers w; nextTimer := nextTimer w;
     effectTimers := effectTimers w; pendingQuery := pendingQuery w;
     pendingUpload := v; pendingSessions := pendingSessions w |}.

Definition set_pendingSessions (v : nat) (w : World) : World :=
  {| messages := messages w; currentQuery := currentQuery w;
     sessionId := sessionId w; query := query w;
     isUploading := isUploading w; isProcessingQuery := isProcessingQuery w;
     uploadStatuses := uploadStatuses w; uploadingFile := uploadingFile w;
     processingMessage := processingMessage w; clock := clock w;
     timers := timers w; nextTimer := nextTimer w;
     effectTimers := effectTimers w; pendingQuery := pendingQuery w;
     pendingUpload := pendingUpload w; pendingSessions := v |}.

(** What a handler does to the outside. *)
Inductive Output : Type :=
| FetchNewChat
| FetchQuery (query : string) (session_id : value)
| FetchUpload (pdf : File) (session_id : value)
| Alert (text : string)
| ConsoleError (text : string)
| ConsoleLog (text : string).

(** How a network call ends: [fetch] rejects, or a reply arrives with its
    [ok] flag and a body that parses as JSON or does not. *)
Inductive Reply : Type :=
| NetworkFailure
| HttpReply (ok : bool) (body : option json).

Inductive Event : Type :=
| Typing (text : string)
| Submit
| QueryReply (r : Reply)
| SelectFile (f : option File)
| UploadReply (r : Reply)
| NewChat
| SessionReply (r : Reply)
| Dismiss (id : string)
| Elapse (ms : N).

(** [Date.now().toString()] *)
Definition nowString (w : World) : string :=
  NilZero.string_of_int (Z.to_int (clock w)).

(* ===================================================================== *)
(** ** [String.prototype.trim] as the handlers use it *)

Definition asciiSpace (a : N) : bool :=
  ((9 <=? a) && (a <=? 13) || (a =? 32))%N.

(** U+00A0 *)
Definition twoByteSpace (a b : N) : bool :=
  ((a =? 194) && (b =? 160))%N.

(** U+1680, U+2000 to U+200A, U+2028, U+2029, U+202F, U+205F, U+3000, U+FEFF *)
Definition threeByteSpace (a b c : N) : bool :=
  ((a =? 225) && (b =? 154) && (c =? 128)
   || (a =? 226) && (b =? 128)
      && ((128 <=? c) && (c <=? 138) || (c =? 168) || (c =? 169) || (c =? 175))
   || (a =? 226) && (b =? 129) && (c =? 159)
   || (a =? 227) && (b =? 128) && (c =? 128)
   || (a =? 239) && (b =? 187) && (c =? 191))%N.

(** [blank s] holds when [s.trim()] is the empty string, that is when [s]
    consists of white space and line terminators only. *)
Fixpoint blank (s : string) : bool :=
  match s with
  | "" => true
  | String a s1 =>
      if asciiSpace (N_of_ascii a) then blank s1
      else match s1 with
           | "" => false
           | String b s2 =>
               if twoByteSpace (N_of_ascii a) (N_of_ascii b) then blank s2
               else match s2 with
                    | "" => false
                    | String c s3 =>
                        if threeByteSpace (N_of_ascii a) (N_of_ascii b) (N_of_ascii c)
                        then blank s3 else false
                    end
           end
  end.

(* ===================================================================== *)
(** ** The status-message effect of [ChatInterface] and its timers *)

Definition thinkingMessage : string := "🔍 Thinking deeply about your question...".
Definition skimmingMessage : string := "📚 Skimming through your study materials...".
Definition sorryMessage : string := "⏳ Sorry for the wait — almost there!".
Definition hangTightMessage : string :=
  "🤖 Even I’m trying my best... hang tight, I’ll be ready soon!".

Fixpoint enqueue (t : Timer) (q : list Timer) : list Timer :=
  match q with
  | [] => [t]
  | t' :: rest =>
      if (timer_due t <? timer_due t')%Z then t :: q else t' :: enqueue t rest
  end.

(** [setTimeout(() => setProcessingMessage(text), delay)]; the handle it
    returns is [nextTimer] of the world it is called in. *)
Definition setTimeout (text : string) (delay : Z) (w : World) : World :=
  let t := {| timer_handle := nextTimer w;
              timer_due := (clock w + delay)%Z;
              timer_message := text |} in
  set_nextTimer (S (nextTimer w)) (set_timers (enqueue t (timers w)) w).

Definition clearTimeout (handle : nat) (w : World) : World :=
  set_timers (filter (fun t => timer_handle t <> handle) (timers w)) w.

(** The body of the effect when [isProcessingQuery] is true. *)
Definition statusEffect (w : World) : World :=
  let w0 := set_processingMessage thinkingMessage w in
  let timer := nextTimer w0 in
  let w1 := setTimeout skimmingMessage (30 * 1000) w0 in
  let timer2 := nextTimer w1 in
  let w2 := setTimeout sorryMessage (90 * 1000) w1 in
  let timer3 := nextTimer w2 in
  let w3 := setTimeout hangTightMessage (210 * 1000) w2 in
  set_effectTimers [timer; timer2; timer3] w3.

(** The cleanup the effect returned. *)
Definition statusCleanup (w : World) : World :=
  set_effectTimers [] (foldl (fun w' h => clearTimeout h w') w (effectTimers w)).

(** [setIsProcessingQuery(b)] and the render it causes: the effect depends
    on [isProcessingQuery] alone, so it runs when that value changes, its
    previous cleanup first. *)
Definition setIsProcessingQuery (b : bool) (w : World) : World :=
  if Bool.eqb b (isProcessingQuery w) then w
  else
    let w' := statusCleanup (set_isProcessingQuery b w) in
    if b then statusEffect w' else w'.

(** The timer callbacks that are due run in queue order. *)
Fixpoint fire (q : list Timer) (now : Z) (message : string) : list Timer * string :=
  match q with
  | [] => ([], message)
  | t :: rest =>
      if (timer_due t <=? now)%Z then fire rest now (timer_message t)
      else (q, message)
  end.

Definition elapse (ms : N) (w : World) : World :=
  let now := (clock w + Z.of_N ms)%Z in
  let (q, message) := fire (timers w) now (processingMessage w) in
  set_processingMessage message (set_timers q (set_clock now w)).

(* ===================================================================== *)
(** ** [App]: session, query and upload calls *)

Definition warningText : string :=
  "⚠️ An error occurred while processing your query. Please try again.".

(** [createNewSession], up to its [await fetch]. *)
Definition createNewSession (w : World) : World * list Output :=
  (set_pendingSessions (S (pendingSessions w)) w, [FetchNewChat]).

(** [createNewSession], from the reply on: [setSessionId(data.session_id)],
    or the [catch] that logs and leaves the state alone. *)
Definition createNewSession_then (r : Reply) (w : World) : World * list Output :=
  let got := match r with
             | HttpReply _ (Some data) => getProp data "session_id"
             | _ => Throw
             end in
  match got with
  | Ok sid => (set_sessionId sid w, [ConsoleLog "New session created:"])
  | Throw => (w, [ConsoleError "Error creating session:"])
  end.

(** What the [try] block of [handleSubmitQuery] computes from the reply;
    the status of the reply is not looked at. *)
Definition queryOutcome (r : Reply) : res value :=
  match r with
  | HttpReply _ (Some data) => responseText data
  | _ => Throw
  end.

(** [handleSubmitQuery], from the reply on.  [query] and [messages] are
    those of the render the call was made from. *)
Definition handleSubmitQuery_then (query : string) (messages : list Message)
    (r : Reply) (w : World) : World * list Output :=
  match queryOutcome r with
  | Ok text =>
      let newMessage := {| msg_id := nowString w; msg_query := query;
                           msg_response := text; msg_timestamp := clock w |} in
      (set_messages (messages ++ [newMessage]) w, [])
  | Throw =>
      let errorMessage := {| msg_id := nowString w; msg_query := query;
                             msg_response := Json (JStr warningText);
                             msg_timestamp := clock w |} in
      (set_messages (messages ++ [errorMessage]) w,
       [ConsoleError "Error submitting query:"])
  end.

(** [handleNewChat] *)
Definition handleNewChat (w : World) : World * list Output :=
  createNewSession (set_currentQuery "" (set_messages [] w)).

(** What [handleUploadPDF] returns for the reply, or that it throws. *)
Definition uploadOutcome (r : Reply) : res (value * value * value) :=
  match r with
  | HttpReply true (Some data) =>
      message <- getProp data "message" ;;
      pages_extracted <- getProp data "pages_extracted" ;;
      chunks_created <- getProp data "chunks_created" ;;
      Ok (message, pages_extracted, chunks_created)
  | _ => Throw
  end.

(* ===================================================================== *)
(** ** [ChatInterface]: the handlers *)

(** [handleSubmit], after [await onSubmitQuery(query)]. *)
Definition handleSubmit_then (w : World) : World :=
  setIsProcessingQuery false (set_query "" w).

(** [handleSubmit], with the call of [handleSubmitQuery] up to its
    [await fetch].  Without a session that call returns at once and
    [handleSubmit] runs to its end. *)
Definition handleSubmit (w : World) : World * list Output :=
  if negb (blank (query w)) && negb (isUploading w) && negb (isProcessingQuery w) then
    let w1 := setIsProcessingQuery true w in
    if negb (truthy (sessionId w)) then
      (handleSubmit_then w1, [ConsoleError "No session ID available"])
    else
      (set_pendingQuery (Some (query w, messages w)) (set_currentQuery (query w) w1),
       [FetchQuery (query w) (sessionId w)])
  else (w, []).

(** The reply to the query in flight resumes [handleSubmitQuery] and then
    [handleSubmit]. *)
Definition queryReply (r : Reply) (w : World) : World * list Output :=
  match pendingQuery w with
  | None => (w, [])
  | Some (query, messages) =>
      let (w1, out) := handleSubmitQuery_then query messages r (set_pendingQuery None w) in
      (handleSubmit_then w1, out)
  end.

(** The [finally] block of [handleFileUpload].  (It also empties the file
    input of the page, which is not part of [World].) *)
Definition handleFileUpload_finally (w : World) : World :=
  set_uploadingFile None (set_isUploading false w).

Definition handleFileUpload_catch (w : World) : World * list Output :=
  (handleFileUpload_finally w,
   [ConsoleError "Upload failed:"; Alert "Failed to upload PDF. Please try again."]).

(** [handleFileUpload], with the call of [handleUploadPDF] up to its
    [await fetch].  Without a session that call throws at once. *)
Definition handleFileUpload (f : option File) (w : World) : World * list Output :=
  match f with
  | None => (w, [])
  | Some file =>
      if negb (String.eqb (file_type file) "application/pdf") then
        (w, [Alert "Please select a PDF file"])
      else
        let w1 := set_uploadingFile (Some (file_name file)) (set_isUploading true w) in
        if negb (truthy (sessionId w)) then handleFileUpload_catch w1
        else (set_pendingUpload (Some file) w1, [FetchUpload file (sessionId w)])
  end.

(** The [newStatus] that [handleFileUpload] builds from the [result] of
    [handleUploadPDF]. *)
Definition newStatus (w : World) (file : File) (result : value * value * value)
  : UploadStatus :=
  let '(message, pages_extracted, chunks_created) := result in
  {| us_id := nowString w; us_filename := file_name file;
     us_message := message;
     us_pagesExtracted := pages_extracted;
     us_chunksCreated := chunks_created;
     us_timestamp := clock w |}.

(** The reply to the upload in flight resumes [handleUploadPDF] and then
    [handleFileUpload]. *)
Definition uploadReply (r : Reply) (w : World) : World * list Output :=
  match pendingUpload w with
  | None => (w, [])
  | Some file =>
      let w0 := set_pendingUpload None w in
      match uploadOutcome r with
      | Ok result =>
          (handleFileUpload_finally
             (set_uploadStatuses (uploadStatuses w0 ++ [newStatus w file result]) w0),
           [])
      | Throw =>
          let (w1, out) := handleFileUpload_catch w0 in
          (w1, ConsoleError "Error uploading PDF:" :: out)
      end
  end.

(** [removeStatus] *)
Definition removeStatus (id : string) (prev : list UploadStatus) : list UploadStatus :=
  filter (fun status => us_id status <> id) prev.

Definition sessionReply (r : Reply) (w : World) : World * list Output :=
  match pendingSessions w with
  | O => (w, [])
  | S n => createNewSession_then r (set_pendingSessions n w)
  end.

(** One turn of the event loop.  The text input is rendered disabled
    while a query or an upload is in flight and the file input while an
    upload is, so these deliver no event then. *)
Definition step (w : World) (e : Event) : World * list Output :=
  match e with
  | Typing text =>
      if isUploading w || isProcessingQuery w then (w, [])
      else (set_query text w, [])
  | Submit => handleSubmit w
  | QueryReply r => queryReply r w
  | SelectFile f => if isUploading w then (w, []) else handleFileUpload f w
  | UploadReply r => uploadReply r w
  | NewChat => handleNewChat w
  | SessionReply r => sessionReply r w
  | Dismiss id => (set_uploadStatuses (removeStatus id (uploadStatuses w)) w, [])
  | Elapse ms => (elapse ms w, [])
  end.

Fixpoint run (w : World) (events : list Event) : World :=
  match events with
  | [] => w
  | e :: rest => run (fst (step w e)) rest
  end.

Fixpoint outputs (w : World) (events : list Event) : list Output :=
  match events with
  | [] => []
  | e :: rest => snd (step w e) ++ outputs (fst (step w e)) rest
  end.

(** The client when [App] has mounted at time [now]: the mount effect has
    called [createNewSession]. *)
Definition mounted (now : Z) : World :=
  {| messages := []; currentQuery := ""; sessionId := Json JNull;
     query := ""; isUploading := false; isProcessingQuery := false;
     uploadStatuses := []; uploadingFile := None;
     processingMessage := thinkingMessage;
     clock := now; timers := []; nextTimer := 0; effectTimers := [];
     pendingQuery := None; pendingUpload := None; pendingSessions := 1 |}.

(* ===================================================================== *)
(** ** The main area of the page, as far as the status message goes *)

(** [!uploadingFile] is false for a file name that is not empty. *)
Definition namesFile (uploadingFile : option string) : bool :=
  match uploadingFile with
  | Some name => negb (String.eqb name "")
  | None => false
  end.

(** The test of the conditional that chooses between the landing view and
    the conversation:
    [messages.length === 0 && uploadStatuses.length === 0 && !uploadingFile]. *)
Definition landing (w : World) : bool :=
  (length (messages w) =? 0)%nat && (length (uploadStatuses w) =? 0)%nat
  && negb (namesFile (uploadingFile w)).

(** The status message on the page: the landing view holds none; the
    conversation holds [processingMessage] below the Messages while
    [isProcessingQuery] is set. *)
Definition shownStatus (w : World) : option string :=
  if landing w then None
  else if isProcessingQuery w then Some (processingMessage w)
  else None.

(* ===================================================================== *)
(** ** Vocabulary of the properties *)

(** A notification with the given id, for examples. *)
Definition note (id filename : string) : UploadStatus :=
  {| us_id := id; us_filename := filename; us_message := Json (JStr "PDF processed");
     us_pagesExtracted := Json (JNum "12"); us_chunksCreated := Json (JNum "40");
     us_timestamp := 0 |}.

(** The [serp_results] property is missing, [null] or the empty array. *)
Definition emptyOrAbsent (results : option json) : Prop :=
  results = None \/ results = Some JNull \/ results = Some (JArr []).

(** The five tags the dispatch knows. *)
Definition recognisedTag (t : value) : bool :=
  isType t "full_pdf_summary" || isType t "page_summary"
  || isType t "concept_search" || isType t "serp_fallback" || isType t "error".

(** The fields no timer and no effect writes. *)
Definition stores (w : World) :=
  (messages w, currentQuery w, sessionId w, query w, isUploading w,
   uploadStatuses w, uploadingFile w, clock w,
   pendingQuery w, pendingUpload w, pendingSessions w).

(** A file of the accepted type, for examples. *)
Definition pdf : File := {| file_name := "notes.pdf"; file_type := "application/pdf" |}.

(** The client with session ["s1"], at rest. *)
Definition ready : World :=
  run (mounted 1000)
      [SessionReply (HttpReply true (Some (JObj [("session_id", JStr "s1")])))].


(** Events that leave a query in flight. *)
Definition noQueryReply (e : Event) : Prop :=
  match e with
  | QueryReply _ => False
  | _ => True
  end.

(** The Message a reply adds for the query [q] in world [w]. *)
Definition replyMessage (w : World) (q : string) (r : Reply) : Message :=
  {| msg_id := nowString w;
     msg_query := q;
     msg_response := match queryOutcome r with
                     | Ok text => text
                     | Throw => Json (JStr warningText)
                     end;
     msg_timestamp := clock w |}.

(** The client with session ["s1"] and the query "hello" typed. *)
Definition typed : World := run ready [Typing "hello"].

(** The outputs that are network calls. *)
Definition isFetch (o : Output) : bool :=
  match o with
  | FetchNewChat | FetchQuery _ _ | FetchUpload _ _ => true
  | _ => false
  end.

(** The notification an event creates, if it completes an upload with
    success. *)
Definition completion (w : World) (e : Event) : list UploadStatus :=
  match e with
  | UploadReply r =>
      match pendingUpload w, uploadOutcome r with
      | Some file, Ok result => [newStatus w file result]
      | _, _ => []
      end
  | _ => []
  end.

(** The notifications created along a run, in the order of completion. *)
Fixpoint completions (w : World) (events : list Event) : list UploadStatus :=
  match events with
  | [] => []
  | e :: rest => completion w e ++ completions (fst (step w e)) rest
  end.

(** A reply of the upload endpoint, for examples. *)
Definition uploaded : json :=
  JObj [("message", JStr "PDF processed"); ("pages_extracted", JNum "12");
        ("chunks_created", JNum "40")].

(** Every pending timer belongs to the running effect, and no effect runs
    while no query is processed. *)
Definition timersOwned (w : World) : Prop :=
  Forall (fun t => timer_handle t ∈ effectTimers w) (timers w)
  /\ (isProcessingQuery w = false -> effectTimers w = []).

(** The part of the state [timersOwned] and the cycle look at. *)
Definition timing (w : World) :=
  (isProcessingQuery w, processingMessage w, clock w, timers w, nextTimer w,
   effectTimers w).

(** The passing of time. *)
Definition isElapse (e : Event) : Prop :=
  match e with
  | Elapse _ => True
  | _ => False
  end.

(** The status message shown [elapsed] milliseconds after the effect
    started. *)
Definition statusAt (elapsed : Z) : string :=
  if (elapsed <? 30 * 1000)%Z then thinkingMessage
  else if (elapsed <? 90 * 1000)%Z then skimmingMessage
  else if (elapsed <? 210 * 1000)%Z then sorryMessage
  else hangTightMessage.

(** The timers of an effect started at [start] with first handle [n] that
    are still pending at [now]. *)
Definition cycleTimers (start : Z) (n : nat) (now : Z) : list Timer :=
  let timer := {| timer_handle := n; timer_due := start + 30 * 1000;
                  timer_message := skimmingMessage |} in
  let timer2 := {| timer_handle := S n; timer_due := start + 90 * 1000;
                   timer_message := sorryMessage |} in
  let timer3 := {| timer_handle := S (S n); timer_due := start + 210 * 1000;
                   timer_message := hangTightMessage |} in
  if (now <? start + 30 * 1000)%Z then [timer; timer2; timer3]
  else if (now <? start + 90 * 1000)%Z then [timer2; timer3]
  else if (now <? start + 210 * 1000)%Z then [timer3]
  else [].

(** The time that passes along a list of events. *)
Fixpoint elapsed (events : list Event) : N :=
  match events with
  | [] => 0
  | Elapse ms :: rest => ms + elapsed rest
  | _ :: rest => elapsed rest
  end.

(** A query is being processed, its effect started at [start]. *)
Definition cycling (start : Z) (n : nat) (w : World) : Prop :=
  isProcessingQuery w = true
  /\ effectTimers w = [n; S n; S (S n)]
  /\ (start <= clock w)%Z
  /\ timers w = cycleTimers start n (clock w)
  /\ processingMessage w = statusAt (clock w - start).

(** The session reply and the typing that precede the submit of the
    example run. *)
Definition history : list Event :=
  [SessionReply (HttpReply true (Some (JObj [("session_id", JStr "s1")])));
   Typing "hello"].

(** A summary entry whose [file] and [summary] convert to the texts of
    [row]. *)
Definition summaryRow (item : json) (row : string * string) : Prop :=
  field item "file" = Ok (fst row) /\ field item "summary" = Ok (snd row).

(** The titled block of a summary. *)
Definition summaryBlock (row : string * string) : string :=
  "**" +:+ fst row +:+ "**" +:+ nl +:+ nl +:+ snd row.

(** The texts of one search result. *)
Record ConceptRow : Type := {
  cr_file : string;
  cr_page : string;
  cr_score : string;
  cr_preview : string
}.

(** A search result whose four properties convert to the texts of [row]. *)
Definition conceptRow (item : json) (row : ConceptRow) : Prop :=
  field item "file" = Ok (cr_file row)
  /\ field item "page" = Ok (cr_page row)
  /\ field item "relevance_score" = Ok (cr_score row)
  /\ field item "preview_summary" = Ok (cr_preview row).

(** The enumerated entry number [n] of a search result. *)
Definition conceptLine (n : nat) (row : ConceptRow) : string :=
  decimal n +:+ ". **" +:+ cr_file row +:+ " - Page " +:+ cr_page row
  +:+ "** (Relevance: " +:+ cr_score row +:+ ")" +:+ nl +:+ cr_preview row.

(** A web result with string [title] and [link], and a [snippet] that is
    a string or is missing. *)
Definition serpRow (item : json) (row : string * string * string) : Prop :=
  let '(title, link, snippet) := row in
  getProp item "title" = Ok (Json (JStr title))
  /\ getProp item "link" = Ok (Json (JStr link))
  /\ (getProp item "snippet" = Ok (Json (JStr snippet))
      \/ getProp item "snippet" = Ok Undefined /\ snippet = "").

(** The enumerated entry number [n] of a web result. *)
Definition serpLine (n : nat) (row : string * string * string) : string :=
  let '(title, link, snippet) := row in
  decimal n +:+ ". [" +:+ title +:+ "](" +:+ link +:+ ")" +:+ nl +:+ snippet.

(** The property is missing or is not an array. *)
Definition notArray (v : option json) : Prop :=
  forall items, v <> Some (JArr items).

(** The value is a string. *)
Definition isText (v : value) : Prop :=
  exists s, v = Json (JStr s).

(** The flags of [ChatInterface] say what is in flight: a query exactly
    when [isProcessingQuery], and then the input still holds its text; an
    upload exactly when [isUploading], and then [uploadingFile] names its
    file. *)
Definition flagsTrackCalls (w : World) : Prop :=
  match pendingQuery w with
  | Some (q, _) => isProcessingQuery w = true /\ query w = q
  | None => isProcessingQuery w = false
  end
  /\ match pendingUpload w with
     | Some file => isUploading w = true /\ uploadingFile w = Some (file_name file)
     | None => isUploading w = false /\ uploadingFile w = None
     end.

(** Events other than the reply to a session request. *)
Definition noSessionReply (e : Event) : Prop :=
  match e with
  | SessionReply _ => False
  | _ => True
  end.

(** The outputs that send a query or a file. *)
Definition sendsData (o : Output) : bool :=
  match o with
  | FetchQuery _ _ | FetchUpload _ _ => true
  | _ => false
  end.

(** The texts of one page summary; [None] for [pr_pages] when the entry
    has no page list, else the printed page numbers. *)
Record PageRow : Type := {
  pr_file : string;
  pr_pages : option (list string);
  pr_summary : string
}.

(** A page summary whose [pages] is missing, [null], or an array of
    numbers, and whose other properties convert to the texts of [row]. *)
Definition pageRow (item : json) (row : PageRow) : Prop :=
  field item "file" = Ok (pr_file row)
  /\ field item "summary" = Ok (pr_summary row)
  /\ match pr_pages row with
     | None => exists p, getProp item "pages" = Ok p /\ nullish p = true
     | Some numbers => getProp item "pages" = Ok (Json (JArr (map JNum numbers)))
     end.

(** The titled block of a page summary. *)
Definition pageBlock (row : PageRow) : string :=
  "**" +:+ pr_file row +:+ " - Pages "
  +:+ match pr_pages row with
      | None => "undefined"
      | Some numbers => String.concat ", " numbers
      end
  +:+ "**" +:+ nl +:+ nl +:+ pr_summary row.











(* ===================================================================== *)
(** ** [formatResponse] of [ChatInterface] *)

(** *** String methods *)

Fixpoint trimStart (s : string) : string :=
  match s with
  | "" => ""
  | String a s1 =>
      if asciiSpace (N_of_ascii a) then trimStart s1
      else match s1 with
           | "" => s
           | String b s2 =>
               if twoByteSpace (N_of_ascii a) (N_of_ascii b) then trimStart s2
               else match s2 with
                    | "" => s
                    | String c s3 =>
                        if threeByteSpace (N_of_ascii a) (N_of_ascii b) (N_of_ascii c)
                        then trimStart s3 else s
                    end
           end
  end.

Fixpoint trimEnd (s : string) : string :=
  if blank s then ""
  else match s with
       | "" => ""
       | String c rest => String c (trimEnd rest)
       end.

(** [s.trim()] *)
Definition trim (s : string) : string := trimEnd (trimStart s).

(** [s.startsWith(p)] *)
Definition startsWith (p s : string) : bool := String.prefix p s.

(** [s.endsWith(p)] *)
Definition endsWith (p s : string) : bool :=
  (String.length p <=? String.length s)%nat
  && String.eqb (substring (String.length s - String.length p) (String.length p) s) p.

(** [s.slice(from, -fromEnd)] *)
Definition slice (from fromEnd : nat) (s : string) : string :=
  substring from (String.length s - fromEnd - from) s.

(** Put [c] in front of the first piece. *)
Definition extend (c : ascii) (pieces : list string) : list string :=
  match pieces with
  | [] => [String c ""]
  | piece :: rest => String c piece :: rest
  end.

(** [response.split('\n\n')] *)
Fixpoint paragraphs (s : string) : list string :=
  match s with
  | "" => [""]
  | String c rest =>
      match rest with
      | String c' rest' =>
          if Ascii.eqb c "010" && Ascii.eqb c' "010" then "" :: paragraphs rest'
          else extend c (paragraphs rest)
      | "" => extend c (paragraphs rest)
      end
  end.

(** *** Regular expressions, as far as the two patterns need them *)

Inductive CharClass : Type :=
| Literal (c : ascii)
| Digit            (* \d *)
| Space            (* \s *)
| Any              (* . under the s flag *)
| NotNewline.      (* . without it *)

(** What is left of [s] after one character of the class, if [s] starts
    with one. *)
Definition strip (class : CharClass) (s : string) : option string :=
  match s with
  | "" => None
  | String a s1 =>
      match class with
      | Literal c => if Ascii.eqb a c then Some s1 else None
      | Digit =>
          if (48 <=? N_of_ascii a)%N && (N_of_ascii a <=? 57)%N then Some s1 else None
      | Space =>
          if asciiSpace (N_of_ascii a) then Some s1
          else match s1 with
               | "" => None
               | String b s2 =>
                   if twoByteSpace (N_of_ascii a) (N_of_ascii b) then Some s2
                   else match s2 with
                        | "" => None
                        | String c s3 =>
                            if threeByteSpace (N_of_ascii a) (N_of_ascii b) (N_of_ascii c)
                            then Some s3 else None
                        end
               end
      | Any => Some s1
      | NotNewline =>
          if (N_of_ascii a =? 10)%N || (N_of_ascii a =? 13)%N then None
          else match s1 with
               | String b (String c _) =>
                   if (N_of_ascii a =? 226)%N && (N_of_ascii b =? 128)%N
                      && ((N_of_ascii c =? 168)%N || (N_of_ascii c =? 169)%N)
                   then None else Some s1
               | _ => Some s1
               end
      end
  end.

Inductive Regex : Type :=
| Empty
| Class (class : CharClass)
| Seq (r1 r2 : Regex)
| Star (greedy : bool) (r : Regex)     (* r* and r*? *)
| Optional (r : Regex)                 (* r? *)
| Group (r : Regex)                    (* (r) *)
| EndOfInput.                          (* $ *)

Definition lit (c : ascii) : Regex := Class (Literal c).

(** [r+] and [r+?] *)
Definition plus (greedy : bool) (r : Regex) : Regex := Seq r (Star greedy r).

Definition sequence (rs : list Regex) : Regex := foldr Seq Empty rs.

(** The first alternative that succeeds. *)
Definition orElse {A} (first second : option A) : option A :=
  match first with
  | Some a => Some a
  | None => second
  end.

(** The text between the start of [s] and the start of its suffix [rest]. *)
Definition consumed (s rest : string) : string :=
  substring 0 (String.length s - String.length rest) s.

(** The backtracking matcher: [r] is matched at the start of [s] and the
    continuation [k] is given the rest and the captures so far; when [k]
    fails the next alternative of [r] is tried, in the order of the
    language (more iterations first for a greedy star, fewer first for a
    lazy one).  An iteration of a star must consume input; [fuel] bounds
    the iterations, and the length of the input plus one is enough. *)
Fixpoint backtrack (r : Regex) (fuel : nat) (s : string) (captures : list string)
    (k : string -> list string -> option (string * list string))
  : option (string * list string) :=
  match r with
  | Empty => k s captures
  | Class class =>
      match strip class s with
      | Some rest => k rest captures
      | None => None
      end
  | Seq r1 r2 =>
      backtrack r1 fuel s captures (fun s' captures' => backtrack r2 fuel s' captures' k)
  | Star greedy r' =>
      (fix iterate (fuel : nat) (s : string) (captures : list string) :=
         match fuel with
         | O => None
         | S fuel' =>
             let more :=
               backtrack r' fuel' s captures
                 (fun s' captures' =>
                    if (String.length s' <? String.length s)%nat
                    then iterate fuel' s' captures' else None) in
             if greedy then orElse more (k s captures)
             else orElse (k s captures) more
         end) fuel s captures
  | Optional r' => orElse (backtrack r' fuel s captures k) (k s captures)
  | Group r' =>
      backtrack r' fuel s captures
        (fun s' captures' => k s' (captures' ++ [consumed s s']))
  | EndOfInput => match s with "" => k s captures | _ => None end
  end.

(** A match of [r] at the start of [s]: the rest of [s] and the captures. *)
Definition matchAt (r : Regex) (s : string) : option (string * list string) :=
  backtrack r (S (String.length s)) s [] (fun rest captures => Some (rest, captures)).

(** [s.split(r)] from the position where [pending] has been read since
    the last split point and [s] is still to be read: a match at the
    current position ends the pending piece and adds the captures, unless
    it is empty and nothing is pending; otherwise one more character is
    read. *)
Fixpoint splitFrom (r : Regex) (fuel : nat) (pending s : string) : list string :=
  match fuel with
  | O => [pending +:+ s]
  | S fuel' =>
      match s with
      | "" => [pending]
      | String c rest =>
          match matchAt r s with
          | Some (s', captures) =>
              if String.eqb pending "" && (String.length s' =? String.length s)%nat
              then splitFrom r fuel' (pending +:+ String c "") rest
              else pending :: captures ++ splitFrom r fuel' "" s'
          | None => splitFrom r fuel' (pending +:+ String c "") rest
          end
      end
  end.

Definition split (r : Regex) (s : string) : list string :=
  match s with
  | "" => match matchAt r s with Some _ => [] | None => [s] end
  | _ => splitFrom r (2 * String.length s + 1) "" s
  end.

(** *** The formatter *)

(** The pattern of [paragraph.match], under the s flag: digits (captured),
    a dot, any white space, two asterisks, as few characters as will do
    but one at least (captured), two asterisks, an optional colon, any
    white space, and the rest to the end of the paragraph (captured, not
    empty).  The match is tried at the start of the paragraph, where
    alone the start anchor holds. *)
Definition numberedPattern : Regex :=
  sequence [Group (plus true (Class Digit)); lit "."; Star true (Class Space);
            lit "*"; lit "*"; Group (plus false (Class Any)); lit "*"; lit "*";
            Optional (lit ":"); Star true (Class Space);
            Group (plus true (Class Any)); EndOfInput].

(** The pattern of [paragraph.split]: in one capture group, two
    asterisks, as few characters other than line breaks as will do, and
    two asterisks again. *)
Definition boldPattern : Regex :=
  Group (sequence [lit "*"; lit "*"; Star false (Class NotNewline); lit "*"; lit "*"]).

(** A run of text inside a paragraph: emphasized or plain. *)
Inductive Part : Type :=
| Bold (text : string)
| Plain (text : string).

(** What a paragraph is rendered as: a numbered line with an emphasized
    title, or a paragraph of runs. *)
Inductive Block : Type :=
| NumberedItem (num title description : string)
| Paragraph (parts : list Part).

Definition formatPart (part : string) : Part :=
  if startsWith "**" part && endsWith "**" part then Bold (slice 2 2 part)
  else Plain part.

(** The body of the [map] over the paragraphs; [None] is its [null]. *)
Definition formatParagraph (paragraph : string) : option Block :=
  if blank paragraph then None
  else match matchAt numberedPattern paragraph with
       | Some (_, [num; title; description]) =>
           Some (NumberedItem num title (trim description))
       | _ => Some (Paragraph (map formatPart (split boldPattern paragraph)))
       end.

(** [formatResponse(message.response)]: [split] exists on strings only. *)
Definition formatResponse (response : value) : res (list Block) :=
  match response with
  | Json (JStr text) => Ok (omap formatParagraph (paragraphs text))
  | _ => Throw
  end.

(** [rest] is what is left of [s] after some prefix. *)
Definition suffixOf (rest s : string) : Prop :=
  exists p, s = p +:+ rest.

(** No capture group occurs in the pattern. *)
Fixpoint groupFree (r : Regex) : bool :=
  match r with
  | Empty | Class _ | EndOfInput => true
  | Seq r1 r2 => groupFree r1 && groupFree r2
  | Star _ r' | Optional r' => groupFree r'
  | Group _ => false
  end.

(** No asterisk occurs in the text. *)
Fixpoint noAsterisk (s : string) : bool :=
  match s with
  | "" => true
  | String c rest => negb (Ascii.eqb c "*") && noAsterisk rest
  end.

(** The blocks of a text without emphasis: one plain paragraph for every
    paragraph that is not blank. *)
Definition plainBlocks (text : string) : list Block :=
  map (fun p => Paragraph [Plain p])
      (filter (fun p => blank p = false) (paragraphs text)).



(** Two line feeds in a row occur in the text. *)
Fixpoint hasBlankLine (s : string) : bool :=
  match s with
  | "" => false
  | String c rest =>
      match rest with
      | String c' _ => Ascii.eqb c "010" && Ascii.eqb c' "010" || hasBlankLine rest
      | "" => false
      end
  end.



(** Every character of [s] is one byte that the class accepts whatever
    follows it. *)
Fixpoint allOf (class : CharClass) (s : string) : Prop :=
  match s with
  | "" => True
  | String a rest => (forall t, strip class (String a t) = Some t) /\ allOf class rest
  end.

(** Printable ASCII text without an asterisk. *)
Fixpoint asciiLine (s : string) : bool :=
  match s with
  | "" => true
  | String a rest =>
      (32 <=? N_of_ascii a)%N && (N_of_ascii a <=? 126)%N
      && negb (Ascii.eqb a "*") && asciiLine rest
  end.





(* ===================================================================== *)
(** * Properties *)

(** ** Dismissing an upload notification *)

Lemma removeStatus_keeps id (l : list UploadStatus) :
  Forall (fun status => us_id status <> id) l -> removeStatus id l = l.
Proof.
  unfold removeStatus. induction 1 as [|x l Hx _ IH]; [done|].
  rewrite filter_cons_True by done. by rewrite IH.
Qed.

Lemma other_ids_differ (before : list UploadStatus) status after :
  NoDup (map us_id (before ++ status :: after)) ->
  Forall (fun s => us_id s <> us_id status) (before ++ after).
Proof.
  rewrite map_app. simpl. intros Hnd.
  apply NoDup_app in Hnd as (_ & Hdisj & Hnd).
  apply NoDup_cons in Hnd as [Hnotin _].
  apply Forall_app. split; apply Forall_forall; intros s Hs Heq.
  - apply (Hdisj (us_id s)).
    + apply list_elem_of_In, in_map, list_elem_of_In, Hs.
    + rewrite Heq. left.
  - apply Hnotin. rewrite <- Heq.
    apply list_elem_of_In, in_map, list_elem_of_In, Hs.
Qed.

(** C8: in a list of notifications with pairwise different ids,
    dismissing an entry by its id removes that entry, and keeps every
    other entry at its place, whatever the order of the list. *)
Theorem removeStatus_removes_exactly (prev : list UploadStatus) status :
  NoDup (map us_id prev) ->
  status ∈ prev ->
  exists before after,
    prev = before ++ status :: after
    /\ removeStatus (us_id status) prev = before ++ after.
Proof.
  intros Hnd Hin.
  apply list_elem_of_split in Hin as (before & after & ->).
  exists before, after. split; [done|].
  pose proof (other_ids_differ _ _ _ Hnd) as Hother.
  apply Forall_app in Hother as [Hb Ha].
  unfold removeStatus. rewrite filter_app, filter_cons_False by (intros H; by apply H).
  fold (removeStatus (us_id status) before) (removeStatus (us_id status) after).
  by rewrite !removeStatus_keeps.
Qed.

Lemma removeStatus_removes_exactly_witness :
  exists before after,
    [note "3" "c.pdf"; note "1" "a.pdf"; note "2" "b.pdf"]
      = before ++ note "1" "a.pdf" :: after
    /\ removeStatus "1" [note "3" "c.pdf"; note "1" "a.pdf"; note "2" "b.pdf"]
      = before ++ after.
Proof.
  apply (removeStatus_removes_exactly
           [note "3" "c.pdf"; note "1" "a.pdf"; note "2" "b.pdf"] (note "1" "a.pdf")).
  - cbn. rewrite !NoDup_cons, !not_elem_of_cons.
    repeat split; try discriminate; first [apply not_elem_of_nil | apply NoDup_nil_2].
  - apply list_elem_of_In. cbn. tauto.
Defined.

(** ** Response synthesis *)

Lemma preamble_of_strings fields heading E K :
  lookupField "expert_summary" fields = Some (JStr E) ->
  lookupField "core_keyword" fields = Some (JStr K) ->
  preamble (JObj fields) heading =
    Ok ("**Expert Summary:**" +:+ nl +:+ E +:+ nl +:+ nl +:+ "**Core Keyword:** "
        +:+ K +:+ nl +:+ nl +:+ heading +:+ nl +:+ nl).
Proof.
  intros HE HK. unfold preamble, field, getProp. by rewrite HE, HK.
Qed.

Lemma responseText_serp_empty fields :
  lookupField "type" fields = Some (JStr "serp_fallback") ->
  emptyOrAbsent (lookupField "serp_results" fields) ->
  responseText (JObj fields) =
    (head <- preamble (JObj fields) "**Web Results:**" ;;
     Ok (Json (JStr (head +:+ "No results found.")))).
Proof.
  intros Htype Hres. unfold responseText. cbn [getProp]. rewrite Htype. cbn.
  destruct (preamble (JObj fields) "**Web Results:**") as [head|]; [|done].
  cbn. by destruct Hres as [-> | [-> | ->]].
Qed.

(** C6: for the envelope [{type:"serp_fallback", expert_summary:"E",
    core_keyword:"K", serp_results:[]}], and for every [serp_fallback]
    envelope whose result list is empty, [null] or absent, the synthesized
    text is the expert-summary / core-keyword preamble followed by the
    line "No results found."; synthesis throws only if the preamble does,
    and does not when the summary and the keyword are strings. *)
Theorem serp_fallback_no_results :
  responseText
    (JObj [("type", JStr "serp_fallback"); ("expert_summary", JStr "E");
           ("core_keyword", JStr "K"); ("serp_results", JArr [])])
  = Ok (Json (JStr ("**Expert Summary:**" +:+ nl +:+ "E" +:+ nl +:+ nl
                    +:+ "**Core Keyword:** K" +:+ nl +:+ nl +:+ "**Web Results:**"
                    +:+ nl +:+ nl +:+ "No results found.")))
  /\ forall fields,
      lookupField "type" fields = Some (JStr "serp_fallback") ->
      emptyOrAbsent (lookupField "serp_results" fields) ->
      responseText (JObj fields) =
        (head <- preamble (JObj fields) "**Web Results:**" ;;
         Ok (Json (JStr (head +:+ "No results found."))))
      /\ forall E K,
          lookupField "expert_summary" fields = Some (JStr E) ->
          lookupField "core_keyword" fields = Some (JStr K) ->
          responseText (JObj fields) =
            Ok (Json (JStr (("**Expert Summary:**" +:+ nl +:+ E +:+ nl +:+ nl
                             +:+ "**Core Keyword:** " +:+ K +:+ nl +:+ nl
                             +:+ "**Web Results:**" +:+ nl +:+ nl)
                            +:+ "No results found."))).
Proof.
  split; [reflexivity|].
  intros fields Htype Hres. split; [by apply responseText_serp_empty|].
  intros E K HE HK.
  rewrite responseText_serp_empty by done.
  by rewrite (preamble_of_strings _ _ E K).
Qed.

Lemma serp_fallback_no_results_witness :
  emptyOrAbsent (lookupField "serp_results" [("type", JStr "serp_fallback")])
  /\ responseText (JObj [("type", JStr "serp_fallback")]) =
       (head <- preamble (JObj [("type", JStr "serp_fallback")]) "**Web Results:**" ;;
        Ok (Json (JStr (head +:+ "No results found.")))).
Proof.
  split; [by left|].
  refine (proj1 (proj2 serp_fallback_no_results [("type", JStr "serp_fallback")] _ _));
    [reflexivity | by left].
Defined.

(** C3, the envelope at which the claim fails: a recognised tag without
    its payload makes synthesis throw; there is no fall-back to the
    [response] text or to the serialized form. *)
Lemma malformed_envelope_throws :
  responseText (JObj [("type", JStr "concept_search"); ("response", JStr "raw")]) = Throw
  /\ responseText (JObj [("type", JStr "full_pdf_summary")]) = Throw
  /\ responseText JNull = Throw.
Proof. repeat split; reflexivity. Qed.

(** C3, as the code has it: a payload other than [null] whose tag is none
    of the five recognised ones never makes synthesis throw; the result is
    the payload's [response] property when that is truthy, and the
    serialized payload otherwise. *)
Theorem unrecognised_tag_falls_back data t :
  getProp data "type" = Ok t ->
  recognisedTag t = false ->
  exists r,
    getProp data "response" = Ok r
    /\ responseText data =
         Ok (if truthy r then r else Json (JStr (JSON_stringify data))).
Proof.
  intros Ht Hrec. unfold recognisedTag in Hrec.
  repeat (apply orb_false_iff in Hrec as [Hrec ?]).
  assert (exists r, getProp data "response" = Ok r) as [r Hr].
  { destruct data; try discriminate; cbn; eauto.
    destruct (lookupField "response" fields); eauto. }
  exists r. split; [done|].
  unfold responseText. rewrite Ht. cbn [bind].
  repeat match goal with H : isType t _ = false |- _ => rewrite H; clear H end.
  rewrite Hr. cbn [bind]. by destruct (truthy r).
Qed.

Lemma unrecognised_tag_falls_back_witness :
  exists r,
    getProp (JObj [("type", JStr "chitchat"); ("response", JStr "")]) "response" = Ok r
    /\ responseText (JObj [("type", JStr "chitchat"); ("response", JStr "")]) =
         Ok (if truthy r then r
             else Json (JStr (JSON_stringify
                    (JObj [("type", JStr "chitchat"); ("response", JStr "")])))).
Proof.
  apply (unrecognised_tag_falls_back _ (Json (JStr "chitchat"))); reflexivity.
Defined.

(** ** The status-message effect leaves the stores alone *)

Lemma clearTimeouts_timers handles w :
  foldl (fun w' h => clearTimeout h w') w handles
  = set_timers (filter (fun t => timer_handle t ∉ handles) (timers w)) w.
Proof.
  revert w. induction handles as [|h handles IH]; intros w; cbn [foldl].
  - destruct w as [? ? ? ? ? ? ? ? ? ? q ? ? ? ? ?]. unfold set_timers. cbn. f_equal.
    induction q as [|t q IHq]; [done|].
    rewrite filter_cons_True by apply not_elem_of_nil. by rewrite <- IHq.
  - rewrite IH. destruct w as [? ? ? ? ? ? ? ? ? ? q ? ? ? ? ?].
    unfold clearTimeout, set_timers. cbn. f_equal.
    rewrite list_filter_filter. apply list_filter_iff. intros t.
    rewrite not_elem_of_cons. tauto.
Qed.

Lemma statusCleanup_eq w :
  statusCleanup w
  = set_effectTimers []
      (set_timers (filter (fun t => timer_handle t ∉ effectTimers w) (timers w)) w).
Proof. unfold statusCleanup. by rewrite clearTimeouts_timers. Qed.

Lemma setIsProcessingQuery_stores b w :
  stores (setIsProcessingQuery b w) = stores w
  /\ isProcessingQuery (setIsProcessingQuery b w) = b.
Proof.
  unfold setIsProcessingQuery.
  destruct (Bool.eqb b (isProcessingQuery w)) eqn:Heq.
  - apply Bool.eqb_prop in Heq. by rewrite Heq.
  - rewrite statusCleanup_eq. by destruct b, w.
Qed.

Create HintDb world.
#[local] Hint Unfold handleFileUpload_catch handleFileUpload_finally
  handleSubmit_then handleSubmitQuery_then createNewSession
  createNewSession_then handleNewChat : world.

(** Close a goal about fields of [w] by taking [w] apart. *)
Tactic Notation "by_fields" ident(w) :=
  destruct w; repeat progress autounfold with world in *; cbn in *; done.

Ltac stores_fields H :=
  unfold stores in H; injection H as ? ? ? ? ? ? ? ? ? ? ?.

(** ** Upload failure *)

(** C5: when the upload in flight fails (the call rejects, the reply is
    not [ok], or its body is unusable), the alert "Failed to upload PDF.
    Please try again." is raised and the only state written is the
    in-flight indication: [isUploading] becomes false and [uploadingFile]
    is emptied; no notification and no Message is added. *)
Theorem upload_failure_appends_nothing w file r :
  pendingUpload w = Some file ->
  uploadOutcome r = Throw ->
  fst (step w (UploadReply r))
    = set_uploadingFile None (set_isUploading false (set_pendingUpload None w))
  /\ snd (step w (UploadReply r))
    = [ConsoleError "Error uploading PDF:"; ConsoleError "Upload failed:";
       Alert "Failed to upload PDF. Please try again."]
  /\ isUploading (fst (step w (UploadReply r))) = false
  /\ uploadStatuses (fst (step w (UploadReply r))) = uploadStatuses w
  /\ messages (fst (step w (UploadReply r))) = messages w.
Proof.
  intros Hpending Hfail. cbn [step]. unfold uploadReply.
  rewrite Hpending, Hfail. by destruct w.
Qed.

Lemma upload_failure_keeps_statuses w file r :
  pendingUpload w = Some file ->
  uploadOutcome r = Throw ->
  uploadStatuses (fst (step w (UploadReply r))) = uploadStatuses w.
Proof.
  intros Hpending Hfail. cbn [step]. unfold uploadReply.
  rewrite Hpending, Hfail. by destruct w.
Qed.

Lemma upload_failure_appends_nothing_witness :
  let w := run ready [SelectFile (Some pdf)] in
  pendingUpload w = Some pdf
  /\ uploadStatuses (fst (step w (UploadReply (HttpReply false None)))) = uploadStatuses w.
Proof.
  split; [reflexivity|].
  apply (upload_failure_appends_nothing
           (run ready [SelectFile (Some pdf)]) pdf (HttpReply false None));
    reflexivity.
Defined.

(** Without a session [handleUploadPDF] throws before any request is made,
    and the selection ends the same way. *)
Lemma upload_without_session w file :
  isUploading w = false ->
  file_type file = "application/pdf" ->
  truthy (sessionId w) = false ->
  step w (SelectFile (Some file))
  = (set_uploadingFile None (set_isUploading false w),
     [ConsoleError "Upload failed:"; Alert "Failed to upload PDF. Please try again."]).
Proof.
  intros Hidle Htype Hsession. cbn [step]. rewrite Hidle.
  unfold handleFileUpload. rewrite Htype, Hsession. by destruct w.
Qed.

(** ** New chat *)



(** ** The query lifecycle *)

Lemma handleSubmit_guard_fails w :
  blank (query w) = true \/ isUploading w = true \/ isProcessingQuery w = true ->
  step w Submit = (w, []).
Proof.
  intros H. cbn [step]. unfold handleSubmit.
  destruct H as [-> | [-> | ->]]; cbn; [done| |];
    rewrite ?andb_false_r; done.
Qed.

Lemma handleSubmit_accepted w :
  blank (query w) = false ->
  isUploading w = false ->
  isProcessingQuery w = false ->
  truthy (sessionId w) = true ->
  step w Submit
  = (set_pendingQuery (Some (query w, messages w))
       (set_currentQuery (query w) (setIsProcessingQuery true w)),
     [FetchQuery (query w) (sessionId w)]).
Proof.
  intros Hq Hu Hp Hs. cbn [step]. unfold handleSubmit. by rewrite Hq, Hu, Hp, Hs.
Qed.

Lemma submit_starts_query w :
  blank (query w) = false ->
  isUploading w = false ->
  isProcessingQuery w = false ->
  truthy (sessionId w) = true ->
  let w1 := fst (step w Submit) in
  pendingQuery w1 = Some (query w, messages w)
  /\ isProcessingQuery w1 = true
  /\ messages w1 = messages w
  /\ uploadStatuses w1 = uploadStatuses w.
Proof.
  intros Hq Hu Hp Hs. rewrite handleSubmit_accepted by done. cbn [fst].
  destruct (setIsProcessingQuery_stores true w) as [Hst Hflag].
  stores_fields Hst.
  destruct (setIsProcessingQuery true w). cbn in *. by subst.
Qed.

Lemma step_keeps_query_in_flight w e q msgs :
  pendingQuery w = Some (q, msgs) ->
  isProcessingQuery w = true ->
  noQueryReply e ->
  pendingQuery (fst (step w e)) = Some (q, msgs)
  /\ isProcessingQuery (fst (step w e)) = true.
Proof.
  intros Hpending Hflag Hev.
  destruct e as [text| |r|f|r| |r|id|ms].
  - cbn [step]. rewrite Hflag, orb_true_r. done.
  - rewrite handleSubmit_guard_fails by auto. done.
  - done.
  - cbn [step]. destruct (isUploading w); [done|]. unfold handleFileUpload.
    destruct f as [file|]; [|done].
    destruct (negb (String.eqb (file_type file) "application/pdf")); [done|].
    destruct (negb (truthy (sessionId w))); by_fields w.
  - cbn [step]. unfold uploadReply. destruct (pendingUpload w); [|done].
    destruct (uploadOutcome r) as [[[? ?] ?]|]; by_fields w.
  - by_fields w.
  - cbn [step]. unfold sessionReply. destruct (pendingSessions w); [done|].
    unfold createNewSession_then.
    destruct r as [|ok [data|]]; try by_fields w.
    destruct (getProp data "session_id"); by_fields w.
  - by_fields w.
  - cbn [step]. unfold elapse. destruct (fire _ _ _). by_fields w.
Qed.

Lemma run_keeps_query_in_flight events : forall w q msgs,
  pendingQuery w = Some (q, msgs) ->
  isProcessingQuery w = true ->
  Forall noQueryReply events ->
  pendingQuery (run w events) = Some (q, msgs)
  /\ isProcessingQuery (run w events) = true.
Proof.
  induction events as [|e events IH]; intros w q msgs Hpending Hflag Hall; [done|].
  apply Forall_cons in Hall as [He Hall]. cbn [run].
  destruct (step_keeps_query_in_flight w e q msgs) as [Hp Hf]; auto.
Qed.

Lemma queryReply_resolves w q msgs r :
  pendingQuery w = Some (q, msgs) ->
  let w' := fst (step w (QueryReply r)) in
  messages w' = msgs ++ [replyMessage w q r]
  /\ isProcessingQuery w' = false
  /\ pendingQuery w' = None
  /\ query w' = ""
  /\ uploadStatuses w' = uploadStatuses w
  /\ isUploading w' = isUploading w
  /\ sessionId w' = sessionId w.
Proof.
  intros Hpending. cbn [step]. unfold queryReply. rewrite Hpending.
  unfold handleSubmitQuery_then, replyMessage.
  destruct (queryOutcome r) as [text|]; cbn [fst]; unfold handleSubmit_then.
  all: match goal with |- context [setIsProcessingQuery false ?X] =>
         destruct (setIsProcessingQuery_stores false X) as [Hst Hflag] end.
  all: stores_fields Hst.
  all: repeat split; try done; (etrans; [eassumption|]); by destruct w.
Qed.

Lemma queryReply_without_query w r :
  pendingQuery w = None -> step w (QueryReply r) = (w, []).
Proof. intros H. cbn [step]. unfold queryReply. by rewrite H. Qed.




Lemma typing_when_idle w text :
  isUploading w = false ->
  isProcessingQuery w = false ->
  step w (Typing text) = (set_query text w, []).
Proof. intros Hu Hp. cbn [step]. by rewrite Hu, Hp. Qed.

(** C4, where the code departs from it: the status of the reply is never
    consulted, so a reply with a non-success status whose body parses is
    handled like any other.  For the body of an internal server error the
    one Message appended carries the serialized body, not the warning
    text; the lifecycle is idle again. *)
Theorem failed_status_appends_payload :
  let quote := String "034" "" in
  let body := JObj [("detail", JStr "Internal Server Error")] in
  let w := run typed [Submit; QueryReply (HttpReply false (Some body))] in
  (forall ok data, queryOutcome (HttpReply ok (Some data)) = responseText data)
  /\ JSON_stringify body
     = "{" +:+ quote +:+ "detail" +:+ quote +:+ ":"
       +:+ quote +:+ "Internal Server Error" +:+ quote +:+ "}"
  /\ map msg_response (messages w) = [Json (JStr (JSON_stringify body))]
  /\ map msg_response (messages w) <> [Json (JStr warningText)]
  /\ isProcessingQuery w = false.
Proof. repeat split; done. Qed.

(** X24: when the [try] block of a submitted query throws (the call
    rejects, the body does not parse, or synthesis throws), the
    conversation as it was at submission is followed by exactly one
    Message, whose response is the fixed warning text; the lifecycle is
    idle again, and a next non-blank text is accepted and sent (as long
    as no upload is in flight and the session is present). *)
Theorem failed_query_appends_warning w events r :
  blank (query w) = false ->
  truthy (sessionId w) = true ->
  isUploading w = false ->
  isProcessingQuery w = false ->
  Forall noQueryReply events ->
  queryOutcome r = Throw ->
  let w2 := run (fst (step w Submit)) events in
  let w3 := fst (step w2 (QueryReply r)) in
  messages w3
    = messages w ++ [{| msg_id := nowString w2; msg_query := query w;
                        msg_response := Json (JStr warningText);
                        msg_timestamp := clock w2 |}]
  /\ isProcessingQuery w3 = false
  /\ pendingQuery w3 = None
  /\ forall text,
      blank text = false ->
      isUploading w3 = false ->
      truthy (sessionId w3) = true ->
      snd (step (fst (step w3 (Typing text))) Submit)
        = [FetchQuery text (sessionId w3)].
Proof.
  intros Hq Hs Hu Hp Hev Hfail w2 w3.
  destruct (submit_starts_query w Hq Hu Hp Hs) as (Hpending & Hflag & _).
  destruct (run_keeps_query_in_flight events _ _ _ Hpending Hflag Hev)
    as [Hpending2 _].
  fold w2 in Hpending2.
  destruct (queryReply_resolves w2 _ _ r Hpending2) as (Hm & Hidle & Hnone & _).
  fold w3 in Hm, Hidle, Hnone.
  repeat split; try done.
  - rewrite Hm. unfold replyMessage. by rewrite Hfail.
  - intros text Htext Hu3 Hs3. rewrite typing_when_idle by done. cbn [fst].
    rewrite handleSubmit_accepted; by destruct w3.
Qed.

Lemma failed_query_appends_warning_witness :
  messages (run typed [Submit; QueryReply NetworkFailure])
  = messages typed ++ [{| msg_id := "1000"; msg_query := "hello";
                          msg_response := Json (JStr warningText);
                          msg_timestamp := 1000 |}].
Proof.
  refine (proj1 (failed_query_appends_warning typed [] NetworkFailure _ _ _ _ _ _));
    first [reflexivity | constructor].
Defined.

(** C2, the state at which the claim fails: with the session identifier
    absent a submitted text passes the guard of [handleSubmit]; no request
    is made, but the submit is not without effect: the typed text is
    cleared. *)
Lemma submit_without_session_clears_query :
  let w := run (mounted 1000) [Typing "hello"] in
  truthy (sessionId w) = false
  /\ query w = "hello"
  /\ query (fst (step w Submit)) = ""
  /\ fst (step w Submit) <> w.
Proof. repeat split; done. Qed.

(** C2, as the code has it: a submit changes nothing and calls nothing
    when the query text is blank or a query or an upload is in flight;
    with the session identifier absent it makes no network call, starts
    no query, and leaves the Message and the UploadStatus sequences as
    they are. *)
Theorem submit_rejected w :
  (blank (query w) = true \/ isUploading w = true \/ isProcessingQuery w = true ->
   step w Submit = (w, []))
  /\ (truthy (sessionId w) = false ->
      forallb (fun o => negb (isFetch o)) (snd (step w Submit)) = true
      /\ pendingQuery (fst (step w Submit)) = pendingQuery w
      /\ isProcessingQuery (fst (step w Submit)) = isProcessingQuery w
      /\ messages (fst (step w Submit)) = messages w
      /\ uploadStatuses (fst (step w Submit)) = uploadStatuses w).
Proof.
  split; [apply handleSubmit_guard_fails|].
  intros Hs. cbn [step]. unfold handleSubmit. rewrite Hs.
  destruct (negb (blank (query w)) && negb (isUploading w)
            && negb (isProcessingQuery w)) eqn:Hguard; [|done].
  cbn [negb fst snd]. unfold handleSubmit_then.
  apply andb_true_iff in Hguard as [_ Hp]. apply negb_true_iff in Hp.
  match goal with |- context [setIsProcessingQuery false ?X] =>
    destruct (setIsProcessingQuery_stores false X) as [Hst Hflag] end.
  destruct (setIsProcessingQuery_stores true w) as [Hst1 _].
  stores_fields Hst. stores_fields Hst1.
  repeat split; try done; try congruence.
  all: (etrans; [eassumption|]); cbn; done.
Qed.

Lemma submit_rejected_witness :
  step (run typed [Submit]) Submit = (run typed [Submit], [])
  /\ messages (fst (step (mounted 1000) Submit)) = messages (mounted 1000).
Proof.
  split.
  - apply (proj1 (submit_rejected (run typed [Submit]))). right. right. reflexivity.
  - apply (proj2 (submit_rejected (mounted 1000))). reflexivity.
Defined.

(** ** Upload notifications keep the order of completion *)

Lemma uploadReply_success w file r result :
  pendingUpload w = Some file ->
  uploadOutcome r = Ok result ->
  uploadStatuses (fst (step w (UploadReply r)))
  = uploadStatuses w ++ [newStatus w file result].
Proof.
  intros Hpending Hok. cbn [step]. unfold uploadReply. rewrite Hpending, Hok.
  destruct result as [[message pages] chunks]. by destruct w.
Qed.

Lemma step_uploadStatuses w e :
  uploadStatuses (fst (step w e)) = uploadStatuses w ++ completion w e
  \/ completion w e = []
     /\ exists id, uploadStatuses (fst (step w e)) = removeStatus id (uploadStatuses w).
Proof.
  destruct e as [text| |r|f|r| |r|id|ms]; cbn [completion];
    rewrite ?app_nil_r.
  - left. cbn [step]. destruct (isUploading w || isProcessingQuery w); by_fields w.
  - left. cbn [step]. unfold handleSubmit.
    destruct (negb (blank (query w)) && negb (isUploading w)
              && negb (isProcessingQuery w)); [|done].
    destruct (setIsProcessingQuery_stores true w) as [Hst _]. stores_fields Hst.
    destruct (negb (truthy (sessionId w))); cbn [fst]; unfold handleSubmit_then.
    + match goal with |- context [setIsProcessingQuery false ?X] =>
        destruct (setIsProcessingQuery_stores false X) as [Hst' _] end.
      stores_fields Hst'. etrans; [eassumption|]. cbn. done.
    + cbn. done.
  - left. destruct (pendingQuery w) as [[q msgs]|] eqn:Hpending.
    + by destruct (queryReply_resolves w q msgs r Hpending) as (_ & _ & _ & _ & H & _).
    + by rewrite queryReply_without_query.
  - left. cbn [step]. destruct (isUploading w); [done|]. unfold handleFileUpload.
    destruct f as [file|]; [|done].
    destruct (negb (String.eqb (file_type file) "application/pdf")); [done|].
    destruct (negb (truthy (sessionId w))); by_fields w.
  - destruct (pendingUpload w) as [file|] eqn:Hpending.
    + destruct (uploadOutcome r) as [result|] eqn:Hout.
      * left. by apply uploadReply_success.
      * left. rewrite app_nil_r.
        by destruct (upload_failure_keeps_statuses w file r Hpending Hout).
    + left. rewrite app_nil_r. cbn [step]. unfold uploadReply. by rewrite Hpending.
  - left. by_fields w.
  - left. cbn [step]. unfold sessionReply. destruct (pendingSessions w); [done|].
    unfold createNewSession_then.
    destruct r as [|ok [data|]]; try by_fields w.
    destruct (getProp data "session_id"); by_fields w.
  - right. split; [done|]. exists id. by_fields w.
  - left. cbn [step]. unfold elapse. destruct (fire _ _ _). by_fields w.
Qed.

Lemma run_uploadStatuses events : forall w,
  uploadStatuses (run w events) `sublist_of` uploadStatuses w ++ completions w events.
Proof.
  induction events as [|e events IH]; intros w; cbn [run completions].
  - by rewrite app_nil_r.
  - etrans; [apply IH|]. rewrite app_assoc. apply sublist_app; [|done].
    destruct (step_uploadStatuses w e) as [-> | [-> [id ->]]]; [done|].
    rewrite app_nil_r. apply sublist_filter.
Qed.

(** C10: a successful upload puts its notification at the end of the list
    as it is when the upload completes; hence along every run the list is
    a subsequence of the notifications created, in the order of their
    completion (dismissals only take entries out). *)
Theorem uploads_ordered_by_completion :
  (forall w file r result,
      pendingUpload w = Some file ->
      uploadOutcome r = Ok result ->
      uploadStatuses (fst (step w (UploadReply r)))
      = uploadStatuses w ++ [newStatus w file result])
  /\ (forall w events,
      uploadStatuses (run w events)
        `sublist_of` uploadStatuses w ++ completions w events).
Proof.
  split; [apply uploadReply_success | intros; apply run_uploadStatuses].
Qed.

Lemma uploads_ordered_by_completion_witness :
  uploadStatuses (run ready [SelectFile (Some pdf); Elapse 7;
                             UploadReply (HttpReply true (Some uploaded))])
  = [] ++ [newStatus (run ready [SelectFile (Some pdf); Elapse 7]) pdf
             (Json (JStr "PDF processed"), Json (JNum "12"), Json (JNum "40"))].
Proof.
  apply (proj1 uploads_ordered_by_completion
           (run ready [SelectFile (Some pdf); Elapse 7]) pdf
           (HttpReply true (Some uploaded))); reflexivity.
Defined.

(** ** The status-message cycle *)

Lemma Forall_enqueue (P : Timer -> Prop) t q :
  P t -> Forall P q -> Forall P (enqueue t q).
Proof.
  intros Ht. induction 1 as [|t' q Ht' Hq IH]; cbn [enqueue].
  - by constructor.
  - destruct (timer_due t <? timer_due t')%Z; repeat constructor; done.
Qed.

Lemma filter_owned_nil (handles : list nat) (q : list Timer) :
  Forall (fun t => timer_handle t ∈ handles) q ->
  filter (fun t => timer_handle t ∉ handles) q = [].
Proof.
  induction 1 as [|t q Ht _ IH]; [done|].
  rewrite filter_cons_False by (intros H; by apply H). done.
Qed.

Lemma idle_no_timers w :
  timersOwned w -> isProcessingQuery w = false -> timers w = [] /\ effectTimers w = [].
Proof.
  intros [Hown Hidle] Hflag. specialize (Hidle Hflag). split; [|done].
  rewrite Hidle in Hown. destruct Hown as [|t q Ht _]; [done|].
  by apply elem_of_nil in Ht.
Qed.

(** Leaving [Submitting] clears every timer. *)
Lemma setIsProcessingQuery_false_clears w :
  timersOwned w ->
  timers (setIsProcessingQuery false w) = []
  /\ effectTimers (setIsProcessingQuery false w) = []
  /\ processingMessage (setIsProcessingQuery false w) = processingMessage w.
Proof.
  intros Hown. unfold setIsProcessingQuery.
  destruct (isProcessingQuery w) eqn:Hflag; cbn [Bool.eqb].
  - rewrite statusCleanup_eq. destruct Hown as [Hown _].
    destruct w. cbn in *. by rewrite filter_owned_nil.
  - destruct (idle_no_timers w Hown Hflag). done.
Qed.

Lemma setIsProcessingQuery_owned b w :
  timersOwned w -> timersOwned (setIsProcessingQuery b w).
Proof.
  intros Hown.
  destruct b.
  - unfold setIsProcessingQuery.
    destruct (isProcessingQuery w) eqn:Hflag; cbn [Bool.eqb]; [done|].
    destruct (idle_no_timers w Hown Hflag) as [Hq He].
    rewrite statusCleanup_eq. destruct w. cbn in *. subst.
    split; [|done]. cbn -[enqueue].
    repeat apply Forall_enqueue; cbn;
      lazymatch goal with
      | |- Forall _ [] => constructor
      | |- _ => apply list_elem_of_In; cbn; tauto
      end.
  - destruct (setIsProcessingQuery_false_clears w Hown) as (Hq & He & _).
    split; [by rewrite Hq|done].
Qed.

Lemma fire_suffix q now message :
  exists dropped, q = dropped ++ fst (fire q now message).
Proof.
  revert message. induction q as [|t q IH]; intros message; cbn [fire].
  - by exists [].
  - destruct (timer_due t <=? now)%Z.
    + destruct (IH (timer_message t)) as [dropped Hd].
      exists (t :: dropped). cbn. by rewrite <- Hd.
    + by exists [].
Qed.

Lemma elapse_owned ms w : timersOwned w -> timersOwned (elapse ms w).
Proof.
  intros [Hown Hidle]. unfold elapse.
  destruct (fire_suffix (timers w) (clock w + Z.of_N ms) (processingMessage w))
    as [dropped Hd].
  destruct (fire _ _ _) as [q message]. cbn [fst] in Hd.
  rewrite Hd in Hown. apply Forall_app in Hown as [_ Hown].
  split; by_fields w.
Qed.

Lemma timersOwned_timing w w' : timing w' = timing w -> timersOwned w -> timersOwned w'.
Proof.
  unfold timing, timersOwned. intros H. injection H as -> _ _ -> _ ->. done.
Qed.

(** Only a submit, the reply to a query and the passing of time touch the
    status message and its timers. *)
Lemma step_keeps_timing w e :
  e <> Submit -> noQueryReply e -> ~ isElapse e ->
  timing (fst (step w e)) = timing w.
Proof.
  intros Hsubmit Hreply Helapse.
  destruct e as [text| |r|f|r| |r|id|ms].
  - cbn [step]. destruct (isUploading w || isProcessingQuery w); by_fields w.
  - done.
  - done.
  - cbn [step]. destruct (isUploading w); [done|]. unfold handleFileUpload.
    destruct f as [file|]; [|done].
    destruct (negb (String.eqb (file_type file) "application/pdf")); [done|].
    destruct (negb (truthy (sessionId w))); by_fields w.
  - cbn [step]. unfold uploadReply. destruct (pendingUpload w); [|done].
    destruct (uploadOutcome r) as [[[? ?] ?]|]; by_fields w.
  - by_fields w.
  - cbn [step]. unfold sessionReply. destruct (pendingSessions w); [done|].
    unfold createNewSession_then.
    destruct r as [|ok [data|]]; try by_fields w.
    destruct (getProp data "session_id"); by_fields w.
  - by_fields w.
  - by destruct Helapse.
Qed.

Lemma step_owned w e : timersOwned w -> timersOwned (fst (step w e)).
Proof.
  intros Hown.
  destruct e as [text| |r|f|r| |r|id|ms];
    try (apply (timersOwned_timing w);
         [apply step_keeps_timing; cbn; by auto|exact Hown]).
  - cbn [step]. unfold handleSubmit.
    destruct (negb (blank (query w)) && negb (isUploading w)
              && negb (isProcessingQuery w)); [|exact Hown].
    pose proof (setIsProcessingQuery_owned true w Hown) as Hown1.
    destruct (negb (truthy (sessionId w))); cbn [fst]; unfold handleSubmit_then.
    + apply setIsProcessingQuery_owned.
      apply (timersOwned_timing (setIsProcessingQuery true w)); [|done].
      by destruct (setIsProcessingQuery true w).
    + apply (timersOwned_timing (setIsProcessingQuery true w)); [|done].
      by destruct (setIsProcessingQuery true w).
  - cbn [step]. unfold queryReply.
    destruct (pendingQuery w) as [[q msgs]|]; [|exact Hown].
    unfold handleSubmitQuery_then.
    destruct (queryOutcome r); cbn [fst]; unfold handleSubmit_then;
      apply setIsProcessingQuery_owned;
      apply (timersOwned_timing w); by destruct w.
  - by apply elapse_owned.
Qed.

Lemma run_owned events : forall w, timersOwned w -> timersOwned (run w events).
Proof.
  induction events as [|e events IH]; intros w Hown; [done|].
  cbn [run]. by apply IH, step_owned.
Qed.

Lemma mounted_owned now : timersOwned (mounted now).
Proof. split; [constructor|done]. Qed.

Lemma cycling_timing start n w w' :
  timing w' = timing w -> cycling start n w -> cycling start n w'.
Proof.
  unfold timing, cycling. intros H. injection H as -> -> -> -> _ ->. done.
Qed.

Lemma fire_cycle start n now now' :
  (start <= now)%Z -> (now <= now')%Z ->
  fire (cycleTimers start n now) now' (statusAt (now - start))
  = (cycleTimers start n now', statusAt (now' - start)).
Proof.
  intros Hstart Hnow. unfold cycleTimers, statusAt.
  repeat match goal with
         | |- context [(?a <? ?b)%Z] => destruct (Z.ltb_spec a b); try lia
         end;
    cbn [fire timer_due timer_message];
    repeat match goal with
           | |- context [(?a <=? ?b)%Z] => destruct (Z.leb_spec a b); try lia
           end; reflexivity.
Qed.

Lemma elapse_cycling start n ms w :
  cycling start n w ->
  cycling start n (elapse ms w) /\ clock (elapse ms w) = (clock w + Z.of_N ms)%Z.
Proof.
  intros (Hflag & Hh & Hstart & Hq & Hm). unfold elapse.
  rewrite Hq, Hm, (fire_cycle start n (clock w) (clock w + Z.of_N ms)) by lia.
  unfold cycling. destruct w. cbn in *. repeat split; try done. lia.
Qed.

Lemma submit_starts_cycle w :
  timersOwned w ->
  blank (query w) = false ->
  truthy (sessionId w) = true ->
  isUploading w = false ->
  isProcessingQuery w = false ->
  cycling (clock w) (nextTimer w) (fst (step w Submit)).
Proof.
  intros Hown Hq Hs Hu Hp. rewrite handleSubmit_accepted by done. cbn [fst].
  destruct (idle_no_timers w Hown Hp) as [Hnone Hnoh].
  unfold setIsProcessingQuery. rewrite Hp. cbn [Bool.eqb].
  rewrite statusCleanup_eq. unfold cycling, cycleTimers, statusAt.
  destruct w. cbn in Hnone, Hnoh, Hp. subst.
  repeat (cbn -[Z.mul Z.add Z.sub Z.ltb];
          match goal with
          | |- context [(?a <? ?b)%Z] => destruct (Z.ltb_spec a b); try lia
          end).
  repeat split; first [lia|done].
Qed.

Lemma step_cycling start n w e :
  cycling start n w ->
  noQueryReply e ->
  cycling start n (fst (step w e))
  /\ clock (fst (step w e)) = (clock w + Z.of_N (elapsed [e]))%Z.
Proof.
  intros Hc He.
  assert (e <> Submit -> ~ isElapse e ->
          cycling start n (fst (step w e))
          /\ clock (fst (step w e)) = (clock w + Z.of_N (elapsed [e]))%Z) as Hother.
  { intros Hsubmit Helapse.
    pose proof (step_keeps_timing w e Hsubmit He Helapse) as Ht.
    split; [by apply (cycling_timing start n w)|].
    unfold timing in Ht. injection Ht as _ _ -> _ _ _.
    destruct e; cbn [elapsed]; first [lia | by destruct Helapse]. }
  destruct e as [text| |r|f|r| |r|id|ms]; try (apply Hother; cbn; by auto).
  - destruct Hc as (Hflag & Hrest).
    rewrite handleSubmit_guard_fails by auto. cbn. split; [done|lia].
  - cbn [step fst elapsed]. rewrite N.add_0_r. by apply elapse_cycling.
Qed.

Lemma run_cycling start n events : forall w,
  cycling start n w ->
  Forall noQueryReply events ->
  cycling start n (run w events)
  /\ clock (run w events) = (clock w + Z.of_N (elapsed events))%Z.
Proof.
  induction events as [|e events IH]; intros w Hc Hall.
  - cbn. split; [done|lia].
  - apply Forall_cons in Hall as [He Hall]. cbn [run].
    destruct (step_cycling start n w e Hc He) as [Hc' Hclock].
    destruct (IH _ Hc' Hall) as [Hfin Hclock'].
    split; [done|]. rewrite Hclock', Hclock.
    destruct e; cbn [elapsed]; lia.
Qed.

(** C9, where the code departs from it: the test for the landing view
    does not look at [isProcessingQuery], so during the first query of a
    new chat (no Message, no notification, no upload) the landing view
    stays and the status message is not on the page, although the state
    holds it and the timers change it. *)
Theorem first_query_shows_no_status :
  let w := run (mounted 1000) (history ++ [Submit; Elapse 30000]) in
  isProcessingQuery w = true
  /\ processingMessage w = skimmingMessage
  /\ landing w = true
  /\ shownStatus w = None.
Proof. repeat split; reflexivity. Qed.

(** X25: from any state the client can reach, once a query is accepted
    the status message in the state is, after any events that leave the
    query in flight, the one the elapsed time selects: the first below
    30 s, the second from 30 s, the third from 90 s, the last from 210 s;
    it is on the page exactly when the landing view is not.  When the
    reply arrives, with a result or with a failure, no timer is left
    pending, no status message is on the page, and the passing of time
    changes the status message no more. *)
Theorem status_cycle_follows_elapsed_time now history events r :
  let w := run (mounted now) history in
  blank (query w) = false ->
  truthy (sessionId w) = true ->
  isUploading w = false ->
  isProcessingQuery w = false ->
  Forall noQueryReply events ->
  let w2 := run (fst (step w Submit)) events in
  let w3 := fst (step w2 (QueryReply r)) in
  isProcessingQuery w2 = true
  /\ processingMessage w2 = statusAt (Z.of_N (elapsed events))
  /\ isProcessingQuery w3 = false
  /\ timers w3 = []
  /\ (forall ms,
        processingMessage (fst (step w3 (Elapse ms))) = processingMessage w3)
  /\ shownStatus w2
     = (if landing w2 then None else Some (statusAt (Z.of_N (elapsed events))))
  /\ shownStatus w3 = None.
Proof.
  intros w Hq Hs Hu Hp Hev w2 w3.
  assert (timersOwned w) as Hown by apply run_owned, mounted_owned.
  pose proof (submit_starts_cycle w Hown Hq Hs Hu Hp) as Hcycle.
  destruct (run_cycling _ _ events _ Hcycle Hev) as [Hc2 Hclock]. fold w2 in Hc2, Hclock.
  assert (clock (fst (step w Submit)) = clock w) as Hsame.
  { rewrite handleSubmit_accepted by done. cbn [fst].
    destruct (setIsProcessingQuery_stores true w) as [Hst _]. stores_fields Hst.
    etrans; [|eassumption]. by destruct (setIsProcessingQuery true w). }
  destruct Hc2 as (Hflag2 & _ & _ & _ & Hm2).
  assert (timersOwned w3) as Hown3.
  { apply step_owned, run_owned, step_owned, Hown. }
  destruct (submit_starts_query w Hq Hu Hp Hs) as (Hpending & Hflag1 & _).
  destruct (run_keeps_query_in_flight events _ _ _ Hpending Hflag1 Hev)
    as [Hpending2 _]. fold w2 in Hpending2.
  destruct (queryReply_resolves w2 _ _ r Hpending2) as (_ & Hidle & _).
  fold w3 in Hidle.
  destruct (idle_no_timers w3 Hown3 Hidle) as [Hnone _].
  assert (processingMessage w2 = statusAt (Z.of_N (elapsed events))) as Hshown.
  { rewrite Hm2, Hclock, Hsame. f_equal. lia. }
  repeat split; try done.
  - intros ms. cbn [step fst]. unfold elapse. rewrite Hnone. cbn [fire].
    by destruct w3.
  - unfold shownStatus. by rewrite Hflag2, Hshown.
  - unfold shownStatus. rewrite Hidle. by destruct (landing w3).
Qed.

Lemma status_cycle_follows_elapsed_time_witness :
  processingMessage
    (run (fst (step (run (mounted 1000) history) Submit))
         [Elapse 29999; Dismiss "7"; Elapse 1])
  = statusAt (Z.of_N (elapsed [Elapse 29999; Dismiss "7"; Elapse 1])).
Proof.
  assert (Forall noQueryReply [Elapse 29999; Dismiss "7"; Elapse 1]) as Hev
    by (repeat constructor).
  exact (proj1 (proj2 (status_cycle_follows_elapsed_time 1000 history
           [Elapse 29999; Dismiss "7"; Elapse 1] NetworkFailure
           eq_refl eq_refl eq_refl eq_refl Hev))).
Defined.

(* ===================================================================== *)
(** * Further properties of the code *)

(** ** Response synthesis, tag by tag *)

Lemma mapIdx_rows {R : Type} (f : nat -> json -> res string)
    (rel : json -> R -> Prop) (g : nat -> R -> string) :
  (forall i item row, rel item row -> f i item = Ok (g i row)) ->
  forall items rows n,
    Forall2 rel items rows ->
    mapIdx f n items = Ok (imap (fun i => g (n + i)) rows).
Proof.
  intros Hf items rows n Hall. revert n.
  induction Hall as [|item row items rows Hrel _ IH]; intros n; [done|].
  cbn [mapIdx]. rewrite (Hf n item row Hrel). cbn [bind].
  rewrite (IH (S n)). cbn [bind]. rewrite imap_cons, Nat.add_0_r.
  do 2 f_equal. apply imap_ext. intros i x _. cbn. f_equal. lia.
Qed.

Lemma fullSummaryBlock_row idx item row :
  summaryRow item row -> fullSummaryBlock idx item = Ok (summaryBlock row).
Proof.
  intros [Hfile Hsummary]. unfold fullSummaryBlock. by rewrite Hfile, Hsummary.
Qed.

(** X1: for a [full_pdf_summary] envelope whose [summaries] is an array of
    entries with convertible [file] and [summary], the synthesized text is
    the titled blocks of the entries, in order, with the divider between
    them; for the empty array it is the empty text. *)
Theorem full_pdf_summary_joins_blocks fields items rows :
  lookupField "type" fields = Some (JStr "full_pdf_summary") ->
  lookupField "summaries" fields = Some (JArr items) ->
  Forall2 summaryRow items rows ->
  responseText (JObj fields)
  = Ok (Json (JStr (String.concat divider (map summaryBlock rows)))).
Proof.
  intros Htype Hsum Hrows. unfold responseText. cbn [getProp].
  rewrite Htype. cbn [bind isType]. cbn -[callMap]. rewrite Hsum. cbn [bind callMap].
  rewrite (mapIdx_rows fullSummaryBlock summaryRow (fun _ => summaryBlock))
    with (rows := rows) by (done || intros; by apply fullSummaryBlock_row).
  cbn [bind]. repeat f_equal. clear. induction rows as [|row rows IH]; [done|].
  rewrite imap_cons. cbn [map]. by rewrite <- IH.
Qed.

Lemma full_pdf_summary_joins_blocks_witness :
  responseText
    (JObj [("type", JStr "full_pdf_summary");
           ("summaries", JArr [JObj [("file", JStr "a.pdf"); ("summary", JStr "S1")];
                               JObj [("summary", JStr "S2"); ("file", JNum "7")]])])
  = Ok (Json (JStr (String.concat divider
                      (map summaryBlock [("a.pdf", "S1"); ("7", "S2")])))).
Proof.
  eapply full_pdf_summary_joins_blocks; [reflexivity | reflexivity |].
  repeat constructor.
Defined.

Lemma imap_const {A B : Type} (g : A -> B) (l : list A) :
  imap (fun _ => g) l = map g l.
Proof.
  induction l as [|x l IH]; [done|]. rewrite imap_cons. cbn [map]. by rewrite <- IH.
Qed.

Lemma joinWith_numbers sep numbers :
  joinWith jsonToString sep (map JNum numbers) = Ok (String.concat sep numbers).
Proof.
  induction numbers as [|r numbers IH]; [done|].
  cbn [map joinWith jsonToString bind]. cbn [joinWith map] in IH.
  destruct numbers as [|r' numbers]; [done|].
  cbn [map] in *. rewrite IH. done.
Qed.

Lemma pageSummaryBlock_row idx item row :
  pageRow item row -> pageSummaryBlock idx item = Ok (pageBlock row).
Proof.
  intros (Hfile & Hsummary & Hpages). unfold pageSummaryBlock, pageBlock.
  rewrite Hfile, Hsummary. cbn [bind].
  destruct (pr_pages row) as [numbers|].
  - rewrite Hpages. cbn [bind pagesJoin nullish]. rewrite joinWith_numbers. done.
  - destruct Hpages as (p & -> & Hnull). cbn [bind]. unfold pagesJoin.
    rewrite Hnull. done.
Qed.

(** X2: for a [page_summary] envelope the blocks are joined like those of
    a full summary, and the title of a block lists the page numbers
    separated by ", "; an entry without [pages] gets the title
    "... - Pages undefined". *)
Theorem page_summary_lists_pages fields items rows :
  lookupField "type" fields = Some (JStr "page_summary") ->
  lookupField "summaries" fields = Some (JArr items) ->
  Forall2 pageRow items rows ->
  responseText (JObj fields)
  = Ok (Json (JStr (String.concat divider (map pageBlock rows)))).
Proof.
  intros Htype Hsum Hrows. unfold responseText. cbn [getProp].
  rewrite Htype. cbn [bind isType]. cbn -[callMap]. rewrite Hsum. cbn [bind callMap].
  rewrite (mapIdx_rows pageSummaryBlock pageRow (fun _ => pageBlock))
    with (rows := rows) by (done || intros; by apply pageSummaryBlock_row).
  cbn [bind]. by rewrite imap_const.
Qed.

Lemma page_summary_lists_pages_witness :
  responseText
    (JObj [("type", JStr "page_summary");
           ("summaries",
            JArr [JObj [("file", JStr "a.pdf"); ("pages", JArr [JNum "2"; JNum "5"]);
                        ("summary", JStr "S1")];
                  JObj [("file", JStr "b.pdf"); ("summary", JStr "S2")]])])
  = Ok (Json (JStr ("**a.pdf - Pages 2, 5**" +:+ nl +:+ nl +:+ "S1" +:+ divider
                    +:+ "**b.pdf - Pages undefined**" +:+ nl +:+ nl +:+ "S2"))).
Proof.
  eapply page_summary_lists_pages with
    (rows := [{| pr_file := "a.pdf"; pr_pages := Some ["2"; "5"]; pr_summary := "S1" |};
              {| pr_file := "b.pdf"; pr_pages := None; pr_summary := "S2" |}]);
    [reflexivity | reflexivity |].
  repeat constructor. exists Undefined. by split.
Defined.

Lemma conceptItem_row idx item row :
  conceptRow item row -> conceptItem idx item = Ok (conceptLine (idx + 1) row).
Proof.
  intros (Hfile & Hpage & Hscore & Hpreview). unfold conceptItem.
  by rewrite Hfile, Hpage, Hscore, Hpreview.
Qed.

(** X3: for a [concept_search] envelope whose preamble converts and whose
    [results] is an array of entries with convertible properties, the text
    is the preamble followed by the entries numbered 1, 2, ... in the
    order of the array, a blank line between them; each entry names its
    file, page and relevance and ends with its preview.  For the empty
    array the text is the preamble alone. *)
Theorem concept_search_numbers_results fields head items rows :
  lookupField "type" fields = Some (JStr "concept_search") ->
  preamble (JObj fields) "**Relevant Results:**" = Ok head ->
  lookupField "results" fields = Some (JArr items) ->
  Forall2 conceptRow items rows ->
  responseText (JObj fields)
  = Ok (Json (JStr (head +:+ String.concat (nl +:+ nl)
                               (imap (fun i => conceptLine (i + 1)) rows)))).
Proof.
  intros Htype Hhead Hres Hrows. unfold responseText. cbn [getProp].
  rewrite Htype. cbn [bind isType]. cbn -[callMap preamble]. rewrite Hhead. cbn [bind].
  cbn [getProp]. rewrite Hres. cbn [bind callMap].
  rewrite (mapIdx_rows conceptItem conceptRow (fun i => conceptLine (i + 1)))
    with (rows := rows) by (done || intros; by apply conceptItem_row).
  done.
Qed.

Lemma concept_search_numbers_results_witness :
  responseText
    (JObj [("type", JStr "concept_search");
           ("results", JArr [JObj [("file", JStr "a.pdf"); ("page", JNum "3");
                                   ("relevance_score", JNum "0.9");
                                   ("preview_summary", JStr "p")]]);
           ("expert_summary", JStr "E"); ("core_keyword", JStr "K")])
  = Ok (Json (JStr (("**Expert Summary:**" +:+ nl +:+ "E" +:+ nl +:+ nl
                     +:+ "**Core Keyword:** K" +:+ nl +:+ nl
                     +:+ "**Relevant Results:**" +:+ nl +:+ nl)
                    +:+ "1. **a.pdf - Page 3** (Relevance: 0.9)" +:+ nl +:+ "p"))).
Proof.
  eapply concept_search_numbers_results with
    (rows := [{| cr_file := "a.pdf"; cr_page := "3"; cr_score := "0.9";
                 cr_preview := "p" |}]);
    [reflexivity | reflexivity | reflexivity |].
  repeat constructor.
Defined.

Lemma callMap_notArray (v : option json) f :
  notArray v ->
  callMap (match v with Some j => Json j | None => Undefined end) f = Throw.
Proof.
  intros Hv. destruct v as [j|]; [|done].
  destruct j; try done. by destruct (Hv items).
Qed.

(** X4: an envelope with one of the tags [full_pdf_summary],
    [page_summary], [concept_search] whose list ([summaries], [results])
    is missing or is not an array makes synthesis throw, whatever else the
    envelope holds. *)
Theorem missing_list_throws fields :
  (lookupField "type" fields = Some (JStr "full_pdf_summary")
   \/ lookupField "type" fields = Some (JStr "page_summary")) /\
  notArray (lookupField "summaries" fields)
  \/ lookupField "type" fields = Some (JStr "concept_search") /\
     notArray (lookupField "results" fields) ->
  responseText (JObj fields) = Throw.
Proof.
  intros [[[Htype | Htype] Hlist] | [Htype Hlist]];
    unfold responseText; cbn [getProp]; rewrite Htype; cbn [bind isType];
    cbn -[callMap preamble].
  - pose proof (callMap_notArray _ fullSummaryBlock Hlist) as H.
    destruct (lookupField "summaries" fields); cbn [bind]; by rewrite H.
  - pose proof (callMap_notArray _ pageSummaryBlock Hlist) as H.
    destruct (lookupField "summaries" fields); cbn [bind]; by rewrite H.
  - destruct (preamble (JObj fields) "**Relevant Results:**"); [|done].
    cbn [bind getProp].
    pose proof (callMap_notArray _ conceptItem Hlist) as H.
    destruct (lookupField "results" fields); cbn [bind]; by rewrite H.
Qed.

Lemma missing_list_throws_witness :
  responseText (JObj [("type", JStr "page_summary"); ("summaries", JStr "none");
                      ("response", JStr "raw")]) = Throw.
Proof.
  apply missing_list_throws. left. split; [by right|]. intros items. discriminate.
Defined.

Lemma length_append (s t : string) :
  String.length (s +:+ t) = String.length s + String.length t.
Proof.
  induction s as [|c s IH]; [done|].
  change (S (String.length (s +:+ t)) = S (String.length s + String.length t)).
  by rewrite IH.
Qed.

Lemma serpItem_row idx item row :
  serpRow item row -> serpItem idx item = Ok (serpLine (idx + 1) row).
Proof.
  destruct row as [[title link] snippet]. intros (Htitle & Hlink & Hsnippet).
  unfold serpItem, field. rewrite Htitle, Hlink. cbn [bind toString jsonToString].
  destruct Hsnippet as [-> | [-> ->]]; cbn [bind truthy]; [|done].
  destruct snippet; done.
Qed.

Lemma serpLine_not_empty n row : serpLine n row <> "".
Proof.
  destruct row as [[title link] snippet]. unfold serpLine. intros H.
  apply (f_equal String.length) in H. rewrite !length_append in H.
  cbn in H. lia.
Qed.

(** X5: for a [serp_fallback] envelope whose [serp_results] is a
    non-empty array of well-formed entries, the text is the preamble
    followed by the entries numbered from 1, each a link and below it the
    snippet (nothing when the snippet is missing or empty); the line "No
    results found." does not appear in place of the list. *)
Theorem serp_fallback_lists_links fields head items rows :
  lookupField "type" fields = Some (JStr "serp_fallback") ->
  preamble (JObj fields) "**Web Results:**" = Ok head ->
  lookupField "serp_results" fields = Some (JArr items) ->
  items <> [] ->
  Forall2 serpRow items rows ->
  responseText (JObj fields)
  = Ok (Json (JStr (head +:+ String.concat (nl +:+ nl)
                               (imap (fun i => serpLine (i + 1)) rows)))).
Proof.
  intros Htype Hhead Hres Hne Hrows. unfold responseText. cbn [getProp].
  rewrite Htype. cbn [bind isType]. cbn -[callMap preamble]. rewrite Hhead. cbn [bind].
  cbn [getProp]. rewrite Hres. cbn [bind callMap nullish].
  rewrite (mapIdx_rows serpItem serpRow (fun i => serpLine (i + 1)))
    with (rows := rows) by (done || intros; by apply serpItem_row).
  cbn [bind truthy].
  destruct Hrows as [|item row items rows Hrow Hrows]; [done|].
  rewrite imap_cons.
  destruct (String.concat (nl +:+ nl) _) as [|c listing] eqn:Hlisting; [|done].
  exfalso. apply (serpLine_not_empty (0 + 1) row).
  cbn [String.concat] in Hlisting.
  destruct (imap _ rows); [done|].
  apply (f_equal String.length) in Hlisting. rewrite !length_append in Hlisting.
  cbn in Hlisting. lia.
Qed.

Lemma serp_fallback_lists_links_witness :
  responseText
    (JObj [("type", JStr "serp_fallback"); ("expert_summary", JStr "E");
           ("core_keyword", JStr "K");
           ("serp_results", JArr [JObj [("title", JStr "T"); ("link", JStr "http://l")]])])
  = Ok (Json (JStr (("**Expert Summary:**" +:+ nl +:+ "E" +:+ nl +:+ nl
                     +:+ "**Core Keyword:** K" +:+ nl +:+ nl
                     +:+ "**Web Results:**" +:+ nl +:+ nl)
                    +:+ "1. [T](http://l)" +:+ nl))).
Proof.
  eapply serp_fallback_lists_links with (rows := [("T", "http://l", "")]);
    [reflexivity | reflexivity | reflexivity | discriminate |].
  constructor; [|constructor]. repeat split. right. by split.
Defined.

(** X6: whenever synthesis succeeds, the response it gives is a string,
    except that for the tag [error] and for an unrecognised tag (the tag
    is then none of the four whose response the client puts together) it
    may be the payload's own [response] property, whatever that is; for
    an unrecognised tag only when that property is truthy. *)
Theorem responseText_is_text_or_response data v :
  responseText data = Ok v ->
  isText v
  \/ exists t,
      getProp data "type" = Ok t
      /\ isType t "full_pdf_summary" = false /\ isType t "page_summary" = false
      /\ isType t "concept_search" = false /\ isType t "serp_fallback" = false
      /\ getProp data "response" = Ok v
      /\ (isType t "error" = false -> truthy v = true).
Proof.
  unfold responseText. destruct (getProp data "type") as [t|]; [|done]. cbn [bind].
  destruct (isType t "full_pdf_summary") eqn:H1.
  { destruct (getProp data "summaries") as [s|]; [|done]. cbn [bind].
    destruct (callMap s fullSummaryBlock); [|done]. intros [= <-]. left. by eexists. }
  destruct (isType t "page_summary") eqn:H2.
  { destruct (getProp data "summaries") as [s|]; [|done]. cbn [bind].
    destruct (callMap s pageSummaryBlock); [|done]. intros [= <-]. left. by eexists. }
  destruct (isType t "concept_search") eqn:H3.
  { destruct (preamble data _); [|done]. cbn [bind].
    destruct (getProp data "results") as [s|]; [|done]. cbn [bind].
    destruct (callMap s conceptItem); [|done]. intros [= <-]. left. by eexists. }
  destruct (isType t "serp_fallback") eqn:H4.
  { destruct (preamble data _); [|done]. cbn [bind].
    destruct (getProp data "serp_results") as [s|]; [|done]. cbn [bind].
    destruct (if nullish s then _ else _) as [listing|]; [|done]. cbn [bind].
    destruct (if truthy listing then _ else _); [|done]. intros [= <-].
    left. by eexists. }
  destruct (isType t "error") eqn:H5.
  { intros Hresponse. right. exists t.
    repeat split; first [done | intros; congruence]. }
  destruct (getProp data "response") as [r|]; [|done]. cbn [bind].
  destruct (truthy r) eqn:Htruthy; intros [= <-].
  - right. exists t. repeat split; first [done | intros; congruence].
  - left. by eexists.
Qed.

Lemma responseText_is_text_or_response_witness :
  isText (Json (JNum "5"))
  \/ exists t,
      getProp (JObj [("type", JStr "error"); ("response", JNum "5")]) "type" = Ok t
      /\ isType t "full_pdf_summary" = false /\ isType t "page_summary" = false
      /\ isType t "concept_search" = false /\ isType t "serp_fallback" = false
      /\ getProp (JObj [("type", JStr "error"); ("response", JNum "5")]) "response"
         = Ok (Json (JNum "5"))
      /\ (isType t "error" = false -> truthy (Json (JNum "5")) = true).
Proof.
  apply responseText_is_text_or_response. reflexivity.
Defined.

(** ** The lifecycles, beyond the claims *)

(** What a submit does to the stores, case by case. *)
Lemma handleSubmit_cases w :
  (blank (query w) = true \/ isUploading w = true \/ isProcessingQuery w = true)
  /\ step w Submit = (w, [])
  \/ (blank (query w) = false /\ isUploading w = false /\ isProcessingQuery w = false)
     /\ (truthy (sessionId w) = false
         /\ snd (step w Submit) = [ConsoleError "No session ID available"]
         /\ stores (fst (step w Submit)) = stores (set_query "" w)
         /\ isProcessingQuery (fst (step w Submit)) = false
         \/ truthy (sessionId w) = true
            /\ snd (step w Submit) = [FetchQuery (query w) (sessionId w)]
            /\ stores (fst (step w Submit))
               = stores (set_pendingQuery (Some (query w, messages w))
                           (set_currentQuery (query w) w))
            /\ isProcessingQuery (fst (step w Submit)) = true).
Proof.
  destruct (blank (query w)) eqn:Hq; [left; split; [auto|apply handleSubmit_guard_fails; auto]|].
  destruct (isUploading w) eqn:Hu; [left; split; [auto|apply handleSubmit_guard_fails; auto]|].
  destruct (isProcessingQuery w) eqn:Hp;
    [left; split; [auto|apply handleSubmit_guard_fails; auto]|].
  right. split; [done|].
  destruct (setIsProcessingQuery_stores true w) as [Hst1 Hflag1].
  destruct (truthy (sessionId w)) eqn:Hs; [right | left]; split; try done.
  - rewrite handleSubmit_accepted by done. cbn [fst snd]. split; [done|].
    unfold stores in *. destruct (setIsProcessingQuery true w).
    cbn in *. injection Hst1 as -> -> -> -> -> -> -> -> -> -> ->. by subst.
  - cbn [step]. unfold handleSubmit. rewrite Hq, Hu, Hp, Hs. cbn [negb andb fst snd].
    split; [done|]. unfold handleSubmit_then.
    match goal with |- context [setIsProcessingQuery false ?X] =>
      destruct (setIsProcessingQuery_stores false X) as [Hst Hflag] end.
    split; [|done]. rewrite Hst. unfold stores in *.
    destruct (setIsProcessingQuery true w). cbn in *.
    injection Hst1 as -> -> -> -> -> -> -> -> -> -> ->. done.
Qed.

Lemma queryReply_stores w q msgs r :
  pendingQuery w = Some (q, msgs) ->
  stores (fst (step w (QueryReply r)))
  = stores (set_query "" (set_messages (msgs ++ [replyMessage w q r])
                            (set_pendingQuery None w)))
  /\ isProcessingQuery (fst (step w (QueryReply r))) = false.
Proof.
  intros Hpending. cbn [step]. unfold queryReply. rewrite Hpending.
  unfold handleSubmitQuery_then, replyMessage.
  destruct (queryOutcome r) as [text|]; cbn [fst]; unfold handleSubmit_then.
  all: match goal with |- context [setIsProcessingQuery false ?X] =>
         destruct (setIsProcessingQuery_stores false X) as [Hst Hflag] end.
  all: split; [|done]; rewrite Hst; by destruct w.
Qed.

(** Rewrite the fields of a stepped world by an equation of [stores]. *)
Ltac use_stores H :=
  stores_fields H; cbn [step] in *;
  repeat match goal with
         | Hx : ?f (fst ?X) = _ |- context [?f (fst ?X)] => rewrite Hx; clear Hx
         end.

(** As [by_fields], using the equations at hand. *)
Tactic Notation "by_fields'" ident(w) :=
  destruct w; repeat progress autounfold with world in *; cbn in *;
  subst; cbn in *; done.

Lemma mounted_flags now : flagsTrackCalls (mounted now).
Proof. by split. Qed.

Lemma step_flags w e : flagsTrackCalls w -> flagsTrackCalls (fst (step w e)).
Proof.
  unfold flagsTrackCalls. intros Hinv. pose proof Hinv as [Hquery Hupload].
  destruct e as [text| |r|f|r| |r|id|ms].
  - cbn [step]. destruct (isUploading w || isProcessingQuery w) eqn:Hg; [exact Hinv|].
    apply orb_false_iff in Hg as [Hu Hp]. cbn [fst].
    destruct (pendingQuery w) as [[q msgs]|] eqn:Hpq;
      [destruct Hquery; congruence|].
    by_fields' w.
  - destruct (handleSubmit_cases w)
      as [[_ ->] | [(Hq & Hu & Hp) [(Hs & _ & Hst & Hflag) | (Hs & _ & Hst & Hflag)]]];
      [exact Hinv | |].
    + use_stores Hst.
      destruct (pendingQuery w) as [[q msgs]|] eqn:Hpq;
        [destruct Hquery; congruence|].
      by_fields' w.
    + use_stores Hst.
      by_fields' w.
  - destruct (pendingQuery w) as [[q msgs]|] eqn:Hpq.
    + destruct (queryReply_stores w q msgs r Hpq) as [Hst Hflag]. use_stores Hst.
      by_fields' w.
    + rewrite queryReply_without_query by done. cbn [fst]. by rewrite Hpq.
  - cbn [step]. destruct (isUploading w) eqn:Hu.
    { cbn [fst]. by rewrite Hu. }
    destruct (pendingUpload w) as [file|] eqn:Hpu; [destruct Hupload; congruence|].
    unfold handleFileUpload. destruct f as [file|]; [|cbn [fst]; by rewrite Hpu, Hu].
    destruct (negb (String.eqb (file_type file) "application/pdf"));
      [cbn [fst]; by rewrite Hpu, Hu|].
    destruct (negb (truthy (sessionId w))); by_fields' w.
  - cbn [step]. unfold uploadReply.
    destruct (pendingUpload w) as [file|] eqn:Hpu; [|cbn [fst]; by rewrite Hpu].
    destruct (uploadOutcome r) as [[[? ?] ?]|]; by_fields' w.
  - by_fields' w.
  - cbn [step]. unfold sessionReply. destruct (pendingSessions w); [exact Hinv|].
    unfold createNewSession_then.
    destruct r as [|ok [data|]]; try by_fields' w.
    destruct (getProp data "session_id"); by_fields' w.
  - by_fields' w.
  - cbn [step]. unfold elapse. destruct (fire _ _ _). by_fields' w.
Qed.

(** X7: in every state the client reaches, [isProcessingQuery] is set
    exactly while a query is in flight, and the input then still holds the
    submitted text; [isUploading] is set exactly while an upload is in
    flight, and [uploadingFile] then names the file.  So at most one query
    and at most one upload are outstanding at any time. *)
Theorem flags_track_calls now events :
  let w := run (mounted now) events in
  (isProcessingQuery w = true <-> exists q msgs, pendingQuery w = Some (q, msgs) /\ query w = q)
  /\ (isUploading w = true <->
      exists file, pendingUpload w = Some file /\ uploadingFile w = Some (file_name file))
  /\ (isUploading w = false -> uploadingFile w = None).
Proof.
  intros w.
  assert (flagsTrackCalls w) as [Hquery Hupload].
  { subst w. generalize (mounted_flags now). generalize (mounted now).
    induction events as [|e events IH]; intros w0 H0; [done|].
    cbn [run]. by apply IH, step_flags. }
  repeat split.
  - intros Hp. destruct (pendingQuery w) as [[q msgs]|]; [|congruence].
    exists q, msgs. by destruct Hquery.
  - intros (q & msgs & Hpq & _). rewrite Hpq in Hquery. by destruct Hquery.
  - intros Hu. destruct (pendingUpload w) as [file|].
    + exists file. by destruct Hupload.
    + destruct Hupload. congruence.
  - intros (file & Hpu & _). rewrite Hpu in Hupload. by destruct Hupload.
  - intros Hu. destruct (pendingUpload w); destruct Hupload; congruence.
Qed.

(** X8: in every state the client reaches, no status-message timer is
    pending unless a query is being processed; in particular a submit
    that ends at once for want of a session leaves none behind. *)
Theorem idle_client_has_no_timers now events :
  let w := run (mounted now) events in
  isProcessingQuery w = false -> timers w = [] /\ effectTimers w = [].
Proof.
  intros w Hidle. apply idle_no_timers; [|done].
  apply run_owned, mounted_owned.
Qed.

Lemma idle_client_has_no_timers_witness :
  timers (run (mounted 1000) [Typing "hello"; Submit; Elapse 40000]) = []
  /\ effectTimers (run (mounted 1000) [Typing "hello"; Submit; Elapse 40000]) = [].
Proof.
  apply (idle_client_has_no_timers 1000 [Typing "hello"; Submit; Elapse 40000]).
  reflexivity.
Defined.

Lemma flags_track_calls_witness :
  exists q msgs,
    pendingQuery (run (mounted 1000) (history ++ [Submit])) = Some (q, msgs)
    /\ query (run (mounted 1000) (history ++ [Submit])) = q.
Proof.
  apply (proj1 (flags_track_calls 1000 (history ++ [Submit]))). reflexivity.
Defined.

(** X9: a query request leaves the client only from a submit that passes
    every guard: the text is the current input and is not blank, the
    session identifier sent is the current one and is truthy, and neither
    a query nor an upload is in flight.  No other event sends a query. *)
Theorem query_sent_only_on_accepted_submit w e q sid :
  In (FetchQuery q sid) (snd (step w e)) ->
  e = Submit
  /\ q = query w /\ blank q = false
  /\ sid = sessionId w /\ truthy sid = true
  /\ isUploading w = false /\ isProcessingQuery w = false.
Proof.
  destruct e as [text| |r|f|r| |r|id|ms].
  - cbn [step]. by destruct (isUploading w || isProcessingQuery w); intros [].
  - destruct (handleSubmit_cases w)
      as [[_ ->] | [(Hq & Hu & Hp) [(Hs & -> & _) | (Hs & -> & _)]]].
    + intros [].
    + intros [[=]|[]].
    + intros [[= <- <-]|[]]. done.
  - cbn [step]. unfold queryReply. destruct (pendingQuery w) as [[q' msgs]|]; [|intros []].
    unfold handleSubmitQuery_then. destruct (queryOutcome r); cbn; intuition discriminate.
  - cbn [step]. destruct (isUploading w); [intros []|]. unfold handleFileUpload.
    destruct f as [file|]; [|intros []].
    destruct (negb (String.eqb (file_type file) "application/pdf"));
      [cbn; intuition discriminate|].
    destruct (negb (truthy (sessionId w))); cbn; intuition discriminate.
  - cbn [step]. unfold uploadReply. destruct (pendingUpload w); [|intros []].
    destruct (uploadOutcome r) as [[[? ?] ?]|]; cbn; intuition discriminate.
  - cbn. intuition discriminate.
  - cbn [step]. unfold sessionReply. destruct (pendingSessions w); [intros []|].
    unfold createNewSession_then. destruct r as [|ok [data|]]; cbn; try intuition discriminate.
    destruct (getProp data "session_id"); cbn; intuition discriminate.
  - intros [].
  - intros [].
Qed.

Lemma query_sent_only_on_accepted_submit_witness :
  Submit = Submit
  /\ "hello" = query typed /\ blank "hello" = false
  /\ Json (JStr "s1") = sessionId typed /\ truthy (Json (JStr "s1")) = true
  /\ isUploading typed = false /\ isProcessingQuery typed = false.
Proof.
  apply (query_sent_only_on_accepted_submit typed Submit "hello" (Json (JStr "s1"))).
  left. reflexivity.
Defined.

(** X10: a file leaves the client only from the selection of a file whose
    declared type is [application/pdf], with the current, truthy session
    identifier, while no upload is in flight.  No other event, and no
    other kind of file, causes an upload request. *)
Theorem upload_sent_only_for_pdf w e file sid :
  In (FetchUpload file sid) (snd (step w e)) ->
  e = SelectFile (Some file)
  /\ file_type file = "application/pdf"
  /\ sid = sessionId w /\ truthy sid = true
  /\ isUploading w = false.
Proof.
  destruct e as [text| |r|f|r| |r|id|ms].
  - cbn [step]. by destruct (isUploading w || isProcessingQuery w); intros [].
  - destruct (handleSubmit_cases w)
      as [[_ ->] | [_ [(Hs & -> & _) | (Hs & -> & _)]]]; cbn; intuition discriminate.
  - cbn [step]. unfold queryReply. destruct (pendingQuery w) as [[q' msgs]|]; [|intros []].
    unfold handleSubmitQuery_then. destruct (queryOutcome r); cbn; intuition discriminate.
  - cbn [step]. destruct (isUploading w) eqn:Hu; [intros []|]. unfold handleFileUpload.
    destruct f as [file'|]; [|intros []].
    destruct (String.eqb (file_type file') "application/pdf") eqn:Htype; cbn [negb];
      [|cbn; intuition discriminate].
    apply String.eqb_eq in Htype.
    destruct (truthy (sessionId w)) eqn:Hs; cbn [negb];
      [|cbn; intuition discriminate].
    cbn. intros [[= <- <-]|[]]. done.
  - cbn [step]. unfold uploadReply. destruct (pendingUpload w); [|intros []].
    destruct (uploadOutcome r) as [[[? ?] ?]|]; cbn; intuition discriminate.
  - cbn. intuition discriminate.
  - cbn [step]. unfold sessionReply. destruct (pendingSessions w); [intros []|].
    unfold createNewSession_then. destruct r as [|ok [data|]]; cbn; try intuition discriminate.
    destruct (getProp data "session_id"); cbn; intuition discriminate.
  - intros [].
  - intros [].
Qed.

Lemma upload_sent_only_for_pdf_witness :
  SelectFile (Some pdf) = SelectFile (Some pdf)
  /\ file_type pdf = "application/pdf"
  /\ Json (JStr "s1") = sessionId ready /\ truthy (Json (JStr "s1")) = true
  /\ isUploading ready = false.
Proof.
  apply (upload_sent_only_for_pdf ready (SelectFile (Some pdf)) pdf (Json (JStr "s1"))).
  left. reflexivity.
Defined.

Lemma step_without_session w e :
  truthy (sessionId w) = false ->
  noSessionReply e ->
  sessionId (fst (step w e)) = sessionId w
  /\ forallb (fun o => negb (sendsData o)) (snd (step w e)) = true.
Proof.
  intros Hs He. destruct e as [text| |r|f|r| |r|id|ms].
  - cbn [step]. destruct (isUploading w || isProcessingQuery w); by_fields w.
  - destruct (handleSubmit_cases w)
      as [[_ ->] | [_ [(_ & Hout & Hst & _) | (Hs' & _)]]]; [done| |congruence].
    rewrite Hout. split; [|done]. stores_fields Hst.
    etrans; [eassumption|]. by destruct w.
  - destruct (pendingQuery w) as [[q msgs]|] eqn:Hpq.
    + destruct (queryReply_resolves w q msgs r Hpq) as (_ & _ & _ & _ & _ & _ & Hsid).
      split; [done|]. cbn [step]. unfold queryReply. rewrite Hpq.
      unfold handleSubmitQuery_then. by destruct (queryOutcome r).
    + by rewrite queryReply_without_query.
  - cbn [step]. destruct (isUploading w); [done|]. unfold handleFileUpload.
    destruct f as [file|]; [|done].
    destruct (negb (String.eqb (file_type file) "application/pdf")); [done|].
    rewrite Hs. cbn [negb]. by_fields w.
  - cbn [step]. unfold uploadReply. destruct (pendingUpload w); [|done].
    destruct (uploadOutcome r) as [[[? ?] ?]|]; by_fields w.
  - by_fields w.
  - by destruct He.
  - by_fields w.
  - cbn [step]. unfold elapse. destruct (fire _ _ _). by_fields w.
Qed.

(** X11: as long as the session identifier is absent (as it is from the
    start until a session request is answered) nothing the user does makes
    the client send a query or a file: every submit and every selection
    is refused locally. *)
Theorem nothing_sent_without_session events : forall w,
  truthy (sessionId w) = false ->
  Forall noSessionReply events ->
  forallb (fun o => negb (sendsData o)) (outputs w events) = true
  /\ sessionId (run w events) = sessionId w.
Proof.
  induction events as [|e events IH]; intros w Hs Hall; [done|].
  apply Forall_cons in Hall as [He Hall].
  destruct (step_without_session w e Hs He) as [Hsid Hout].
  cbn [outputs run]. rewrite forallb_app, Hout.
  destruct (IH (fst (step w e))) as [Hrest Hsid']; [by rewrite Hsid|done|].
  split; [done|]. by rewrite Hsid'.
Qed.

Lemma nothing_sent_without_session_witness :
  forallb (fun o => negb (sendsData o))
    (outputs (mounted 1000)
       [Typing "hello"; Submit; SelectFile (Some pdf); NewChat; Elapse 5]) = true.
Proof.
  refine (proj1 (nothing_sent_without_session
                   [Typing "hello"; Submit; SelectFile (Some pdf); NewChat; Elapse 5]
                   (mounted 1000) _ _));
    first [reflexivity | repeat constructor].
Defined.

(** X12: the three stores have one writer each besides their reset: the
    Message sequence changes only on the reply to a query or on "new
    chat"; the notification list only on the reply to an upload or on a
    dismissal; the session identifier only on the reply to a session
    request. *)
Theorem stores_change_only_by w e :
  (e <> NewChat -> noQueryReply e -> messages (fst (step w e)) = messages w)
  /\ ((forall id, e <> Dismiss id) -> (forall r, e <> UploadReply r) ->
      uploadStatuses (fst (step w e)) = uploadStatuses w)
  /\ (noSessionReply e -> sessionId (fst (step w e)) = sessionId w).
Proof.
  destruct e as [text| |r|f|r| |r|id|ms].
  - cbn [step]. destruct (isUploading w || isProcessingQuery w); by_fields w.
  - destruct (handleSubmit_cases w)
      as [[_ ->] | [_ [(_ & _ & Hst & _) | (_ & _ & Hst & _)]]]; [done | |];
      stores_fields Hst; repeat split; intros;
      (etrans; [eassumption|]); by destruct w.
  - destruct (pendingQuery w) as [[q msgs]|] eqn:Hpq.
    + destruct (queryReply_resolves w q msgs r Hpq) as (_ & _ & _ & _ & Hus & _ & Hsid).
      repeat split; done.
    + by rewrite queryReply_without_query.
  - cbn [step]. destruct (isUploading w); [done|]. unfold handleFileUpload.
    destruct f as [file|]; [|done].
    destruct (negb (String.eqb (file_type file) "application/pdf")); [done|].
    destruct (negb (truthy (sessionId w))); by_fields w.
  - cbn [step]. unfold uploadReply. destruct (pendingUpload w); [|done].
    destruct (uploadOutcome r) as [[[? ?] ?]|]; repeat split; intros;
      try by_fields w; by destruct (H0 r).
  - by_fields w.
  - cbn [step]. unfold sessionReply. destruct (pendingSessions w); [done|].
    unfold createNewSession_then.
    destruct r as [|ok [data|]]; try by_fields w.
    destruct (getProp data "session_id"); repeat split; intros; try by_fields w;
      by destruct H.
  - repeat split; intros; try by_fields w. by destruct (H id).
  - cbn [step]. unfold elapse. destruct (fire _ _ _). by_fields w.
Qed.

Lemma stores_change_only_by_witness :
  messages (fst (step (run typed [Submit]) (UploadReply NetworkFailure)))
  = messages (run typed [Submit]).
Proof.
  apply (proj1 (stores_change_only_by (run typed [Submit]) (UploadReply NetworkFailure)));
    [discriminate | exact I].
Defined.

(** X13: the reply to a query writes the conversation it was submitted
    from: if "new chat" empties the conversation while the query is in
    flight, the reply brings the earlier Messages back, followed by the
    new one. *)
Theorem new_chat_in_flight_is_undone w r :
  blank (query w) = false ->
  truthy (sessionId w) = true ->
  isUploading w = false ->
  isProcessingQuery w = false ->
  let w1 := run w [Submit; NewChat] in
  messages w1 = []
  /\ messages (fst (step w1 (QueryReply r)))
     = messages w ++ [replyMessage w1 (query w) r].
Proof.
  intros Hq Hs Hu Hp w1.
  destruct (submit_starts_query w Hq Hu Hp Hs) as (Hpending & Hflag & _).
  destruct (step_keeps_query_in_flight _ NewChat _ _ Hpending Hflag I) as [Hpending1 _].
  change (fst (step (fst (step w Submit)) NewChat)) with w1 in Hpending1.
  split.
  - subst w1. cbn [run]. by destruct (fst (step w Submit)).
  - by destruct (queryReply_resolves w1 _ _ r Hpending1) as [Hm _].
Qed.

Lemma new_chat_in_flight_is_undone_witness :
  messages (run typed [Submit; NewChat]) = []
  /\ messages (fst (step (run typed [Submit; NewChat]) (QueryReply NetworkFailure)))
     = messages typed
       ++ [replyMessage (run typed [Submit; NewChat]) (query typed) NetworkFailure].
Proof.
  apply (new_chat_in_flight_is_undone typed NetworkFailure); reflexivity.
Defined.

(** X14: every reply to the upload in flight, with a result or with a
    failure, ends the upload: the flag and the file name are cleared and
    nothing else of the query side or of the session is touched, so the
    next PDF selected is sent (when the session is present).  A reply
    with no upload in flight changes nothing. *)
Theorem upload_reply_returns_to_idle w r :
  (forall file,
      pendingUpload w = Some file ->
      let w' := fst (step w (UploadReply r)) in
      isUploading w' = false /\ uploadingFile w' = None /\ pendingUpload w' = None
      /\ messages w' = messages w /\ sessionId w' = sessionId w
      /\ query w' = query w /\ isProcessingQuery w' = isProcessingQuery w
      /\ pendingQuery w' = pendingQuery w
      /\ forall next,
          file_type next = "application/pdf" ->
          truthy (sessionId w) = true ->
          snd (step w' (SelectFile (Some next))) = [FetchUpload next (sessionId w)])
  /\ (pendingUpload w = None -> step w (UploadReply r) = (w, [])).
Proof.
  split.
  - intros file Hpu w'. subst w'. cbn [step]. unfold uploadReply. rewrite Hpu.
    unfold handleFileUpload.
    destruct (uploadOutcome r) as [[[? ?] ?]|]; repeat split; try by_fields w.
    all: intros next Htype Hs; destruct w; cbn in *; by rewrite Htype, Hs.
  - intros Hpu. cbn [step]. unfold uploadReply. by rewrite Hpu.
Qed.

Lemma upload_reply_returns_to_idle_witness :
  isUploading (fst (step (run ready [SelectFile (Some pdf)])
                      (UploadReply (HttpReply true (Some uploaded))))) = false.
Proof.
  refine (proj1 (proj1 (upload_reply_returns_to_idle
                          (run ready [SelectFile (Some pdf)])
                          (HttpReply true (Some uploaded))) pdf _)).
  reflexivity.
Defined.

Lemma nowString_parses w :
  NilZero.int_of_string (nowString w) = Some (Z.to_int (clock w)).
Proof.
  unfold nowString. apply NilZero.isi; destruct (clock w); cbn; try discriminate;
    intros [= Hnil]; by apply (DecimalPos.Unsigned.to_uint_nonnil p).
Qed.

Lemma nowString_inj w w' : nowString w = nowString w' -> clock w = clock w'.
Proof.
  intros H. apply DecimalZ.to_int_inj.
  pose proof (nowString_parses w) as Hw. rewrite H, nowString_parses in Hw.
  by injection Hw.
Qed.

(** X15: the id given to a Message or to a notification is the decimal
    text of the clock reading at its creation: it reads back as that
    number, and the ids of two entries are equal exactly when the entries
    were created at the same clock reading. *)
Theorem ids_equal_iff_same_instant w w' q q' r r' file file' result result' :
  (msg_id (replyMessage w q r) = msg_id (replyMessage w' q' r') <-> clock w = clock w')
  /\ (us_id (newStatus w file result) = us_id (newStatus w' file' result')
      <-> clock w = clock w')
  /\ option_map Z.of_int (NilZero.int_of_string (msg_id (replyMessage w q r)))
     = Some (clock w).
Proof.
  assert (forall x y, nowString x = nowString y <-> clock x = clock y) as Hiff.
  { intros x y. split; [apply nowString_inj|]. unfold nowString. by intros ->. }
  destruct result as [[? ?] ?], result' as [[? ?] ?]. cbn [msg_id us_id replyMessage newStatus].
  repeat split; try apply Hiff.
  rewrite nowString_parses. cbn. by rewrite DecimalZ.of_to.
Qed.

(** X16: with no assumption on the ids, dismissing by an id removes every
    entry that carries it and no other: when two notifications got the
    same id, dismissing one removes both; an id no entry carries changes
    nothing; the entries left keep their order. *)
Theorem removeStatus_removes_all_with_id id (l : list UploadStatus) :
  (forall status, status ∈ removeStatus id l <-> status ∈ l /\ us_id status <> id)
  /\ (forall a b, a ∈ l -> b ∈ l -> us_id a = us_id b ->
                  (a ∉ removeStatus (us_id b) l) /\ (b ∉ removeStatus (us_id b) l))
  /\ (id ∉ map us_id l -> removeStatus id l = l)
  /\ sublist (removeStatus id l) l.
Proof.
  assert (forall i status, status ∈ removeStatus i l <-> status ∈ l /\ us_id status <> i)
    as Hmem.
  { intros i status. unfold removeStatus. rewrite list_elem_of_filter. tauto. }
  split; [apply Hmem|]. split; [|split].
  - intros a b _ _ Hid. split; intros Hin; apply Hmem in Hin as [_ Hne]; congruence.
  - intros Hid. apply removeStatus_keeps, Forall_forall. intros s Hs Heq.
    apply Hid. rewrite <- Heq. apply list_elem_of_In, in_map, list_elem_of_In, Hs.
  - apply sublist_filter.
Qed.

Lemma removeStatus_removes_all_with_id_witness :
  (note "1" "a.pdf" ∉ removeStatus (us_id (note "1" "b.pdf"))
                        [note "1" "a.pdf"; note "2" "c.pdf"; note "1" "b.pdf"])
  /\ (note "1" "b.pdf" ∉ removeStatus (us_id (note "1" "b.pdf"))
                           [note "1" "a.pdf"; note "2" "c.pdf"; note "1" "b.pdf"]).
Proof.
  apply (proj1 (proj2 (removeStatus_removes_all_with_id "1"
                  [note "1" "a.pdf"; note "2" "c.pdf"; note "1" "b.pdf"])));
    [apply list_elem_of_In; cbn; tauto | apply list_elem_of_In; cbn; tauto | reflexivity].
Defined.

(** ** The formatter *)

Lemma append_empty_r (s : string) : s +:+ "" = s.
Proof.
  induction s as [|c s IH]; [done|].
  change (String c (s +:+ "") = String c s). by rewrite IH.
Qed.

Lemma append_assoc (s t u : string) : (s +:+ t) +:+ u = s +:+ t +:+ u.
Proof.
  induction s as [|c s IH]; [done|].
  change (String c ((s +:+ t) +:+ u) = String c (s +:+ t +:+ u)). by rewrite IH.
Qed.

Lemma suffixOf_refl s : suffixOf s s.
Proof. by exists "". Qed.

Lemma suffixOf_trans s1 s2 s3 : suffixOf s1 s2 -> suffixOf s2 s3 -> suffixOf s1 s3.
Proof. intros [p ->] [q ->]. exists (q +:+ p). by rewrite append_assoc. Qed.

Lemma suffixOf_tail c s : suffixOf s (String c s).
Proof. by exists (String c ""). Qed.

Lemma suffixOf_length rest s : suffixOf rest s -> String.length rest <= String.length s.
Proof. intros [p ->]. rewrite length_append. lia. Qed.

Lemma strip_suffixOf class s rest : strip class s = Some rest -> suffixOf rest s.
Proof.
  destruct s as [|a s1]; [done|]. cbn [strip].
  pose proof (suffixOf_tail a s1) as H1.
  destruct class.
  - destruct (Ascii.eqb a c); by intros [= <-].
  - destruct (_ && _); by intros [= <-].
  - destruct (asciiSpace _); [by intros [= <-]|].
    destruct s1 as [|b s2]; [done|].
    pose proof (suffixOf_trans _ _ _ (suffixOf_tail b s2) H1) as H2.
    destruct (twoByteSpace _ _); [by intros [= <-]|].
    destruct s2 as [|c s3]; [done|].
    destruct (threeByteSpace _ _ _); [|done]. intros [= <-].
    exact (suffixOf_trans _ _ _ (suffixOf_tail c s3) H2).
  - by intros [= <-].
  - destruct (_ || _); [done|].
    destruct s1 as [|b [|c s3]]; try by intros [= <-].
    destruct (_ && _); [done|]. by intros [= <-].
Qed.

(** A successful match went through the continuation, at a suffix of the
    input, and a pattern without groups passed the captures on. *)
Lemma backtrack_Some r : forall fuel s captures k result,
  backtrack r fuel s captures k = Some result ->
  exists s' captures',
    suffixOf s' s
    /\ k s' captures' = Some result
    /\ (groupFree r = true -> captures' = captures).
Proof.
  induction r as [| class | r1 IH1 r2 IH2 | greedy r IH | r IH | r IH | ];
    intros fuel s captures k result; cbn [backtrack groupFree].
  - intros H. exists s, captures. auto using suffixOf_refl.
  - destruct (strip class s) as [rest|] eqn:Hstrip; [|done]. intros H.
    exists rest, captures. eauto using strip_suffixOf.
  - intros H. apply IH1 in H as (s1 & c1 & Hs1 & H & Hc1).
    apply IH2 in H as (s2 & c2 & Hs2 & H & Hc2).
    exists s2, c2. split; [eauto using suffixOf_trans|]. split; [done|].
    intros Hg. apply andb_true_iff in Hg as [Hg1 Hg2]. by rewrite Hc2, Hc1.
  - revert s captures. induction fuel as [|fuel IHfuel]; intros s captures; [done|].
    assert (forall more,
      more = backtrack r fuel s captures
               (fun s' captures' =>
                  if (String.length s' <? String.length s)%nat
                  then (fix iterate (fuel : nat) (s : string) (captures : list string) :=
                          match fuel with
                          | O => None
                          | S fuel' =>
                              let more :=
                                backtrack r fuel' s captures
                                  (fun s' captures' =>
                                     if (String.length s' <? String.length s)%nat
                                     then iterate fuel' s' captures' else None) in
                              if greedy then orElse more (k s captures)
                              else orElse (k s captures) more
                          end) fuel s' captures'
                  else None) ->
      more = Some result ->
      exists s' captures',
        suffixOf s' s /\ k s' captures' = Some result
        /\ (groupFree r = true -> captures' = captures)) as Hmore.
    { intros more -> H. apply IH in H as (s1 & c1 & Hs1 & H & Hc1).
      destruct (String.length s1 <? String.length s)%nat; [|done].
      apply IHfuel in H as (s2 & c2 & Hs2 & H & Hc2).
      exists s2, c2. split; [eauto using suffixOf_trans|]. split; [done|].
      intros Hg. by rewrite Hc2, Hc1. }
    assert (k s captures = Some result ->
            exists s' captures',
              suffixOf s' s /\ k s' captures' = Some result
              /\ (groupFree r = true -> captures' = captures)) as Hstop.
    { intros H. exists s, captures. auto using suffixOf_refl. }
    cbn zeta.
    destruct greedy; unfold orElse;
      match goal with
      | |- match ?x with _ => _ end = _ -> _ =>
          destruct x as [found|] eqn:Hfound
      end; intros H; first
        [ injection H as ->; first [by apply (Hmore _ eq_refl) | by apply Hstop]
        | first [by apply (Hmore _ eq_refl) | by apply Hstop] ].
  - unfold orElse.
    destruct (backtrack r fuel s captures k) as [found|] eqn:Hfound; intros H.
    + injection H as ->. by apply IH in Hfound.
    + exists s, captures. auto using suffixOf_refl.
  - intros H. apply IH in H as (s1 & c1 & Hs1 & H & _).
    exists s1, (c1 ++ [consumed s s1]). done.
  - destruct s; [|done]. intros H. exists "", captures. auto using suffixOf_refl.
Qed.

Lemma substring_prefix (p rest : string) :
  substring 0 (String.length p) (p +:+ rest) = p.
Proof.
  induction p as [|c p IH]; [by destruct rest|].
  change (String c (substring 0 (String.length p) (p +:+ rest)) = String c p).
  by rewrite IH.
Qed.

Lemma consumed_suffixOf rest s : suffixOf rest s -> consumed s rest +:+ rest = s.
Proof.
  intros [p ->]. unfold consumed. rewrite length_append.
  replace (String.length p + String.length rest - String.length rest)
    with (String.length p) by lia.
  by rewrite substring_prefix.
Qed.

Lemma concat_empty_cons (x : string) (xs : list string) :
  String.concat "" (x :: xs) = x +:+ String.concat "" xs.
Proof. destruct xs; cbn [String.concat]; [by rewrite append_empty_r|done]. Qed.

Lemma concat_empty_app (xs ys : list string) :
  String.concat "" (xs ++ ys) = String.concat "" xs +:+ String.concat "" ys.
Proof.
  induction xs as [|x xs IH]; [done|].
  change ((x :: xs) ++ ys) with (x :: (xs ++ ys)).
  by rewrite !concat_empty_cons, IH, append_assoc.
Qed.

(** A match of the bold pattern captures exactly the text it consumed. *)
Lemma matchAt_boldPattern s rest captures :
  matchAt boldPattern s = Some (rest, captures) ->
  exists span, captures = [span] /\ s = span +:+ rest.
Proof.
  unfold matchAt, boldPattern. cbn [backtrack]. intros H.
  apply backtrack_Some in H as (s' & c' & Hs' & H & Hc').
  rewrite Hc' in H by done. injection H as <- <-.
  exists (consumed s s'). split; [done|]. by rewrite consumed_suffixOf.
Qed.

Lemma splitFrom_keeps_text fuel : forall pending s,
  String.concat "" (splitFrom boldPattern fuel pending s) = pending +:+ s.
Proof.
  induction fuel as [|fuel IH]; intros pending s; cbn [splitFrom].
  - cbn. done.
  - destruct s as [|c rest]; [cbn; by rewrite append_empty_r|].
    assert (String.concat "" (splitFrom boldPattern fuel (pending +:+ String c "") rest)
            = pending +:+ String c rest) as Hadvance.
    { rewrite IH. by rewrite append_assoc. }
    destruct (matchAt boldPattern (String c rest)) as [[s' captures]|] eqn:Hmatch;
      [|done].
    destruct (String.eqb pending "" && _); [done|].
    apply matchAt_boldPattern in Hmatch as (span & -> & Hspan).
    change (pending :: [span] ++ ?l) with (pending :: span :: l).
    rewrite !concat_empty_cons, IH. cbn [String.append]. by rewrite Hspan.
Qed.

(** X17: splitting a paragraph at its emphasized spans loses no text: the
    pieces, plain and emphasized alike, put together again are the
    paragraph. *)
Theorem split_bold_keeps_text paragraph :
  String.concat "" (split boldPattern paragraph) = paragraph.
Proof.
  unfold split. destruct paragraph as [|c rest].
  - by destruct (matchAt boldPattern "").
  - by rewrite splitFrom_keeps_text.
Qed.

(** Induction along the recursion of [paragraphs]. *)
Lemma paragraphs_cases (Q : string -> list string -> Prop) :
  Q "" [""] ->
  (forall rest,
      Q rest (paragraphs rest) ->
      Q (String "010" (String "010" rest)) ("" :: paragraphs rest)) ->
  (forall c rest,
      (c <> "010"%char \/ forall rest', rest <> String "010" rest') ->
      Q rest (paragraphs rest) ->
      Q (String c rest) (extend c (paragraphs rest))) ->
  forall s, Q s (paragraphs s).
Proof.
  intros Hnil Hbreak Hchar s.
  assert (forall n s, String.length s <= n -> Q s (paragraphs s)) as Hall;
    [|by apply (Hall (String.length s))].
  clear s. induction n as [|n IH]; intros s Hlen.
  - destruct s; [done|cbn in Hlen; lia].
  - destruct s as [|c rest]; [done|]. cbn in Hlen.
    cbn [paragraphs]. destruct rest as [|c' rest'].
    + apply (Hchar c ""); [by right|]. apply IH. cbn. lia.
    + cbn in Hlen.
      destruct (Ascii.eqb_spec c "010") as [-> | Hc];
        [destruct (Ascii.eqb_spec c' "010") as [-> | Hc']|]; cbn [andb].
      * apply Hbreak, IH. lia.
      * apply (Hchar "010"%char (String c' rest')).
        -- right. intros rest'' [= ? _]. done.
        -- apply IH. cbn. lia.
      * apply (Hchar c (String c' rest')); [by left|]. apply IH. cbn. lia.
Qed.

Lemma paragraphs_not_nil s : paragraphs s <> [].
Proof.
  apply (paragraphs_cases (fun _ l => l <> [])); try done.
  intros c rest _ _. by destruct (paragraphs rest).
Qed.

Lemma concat_extend sep c (pieces : list string) :
  pieces <> [] ->
  String.concat sep (extend c pieces) = String c (String.concat sep pieces).
Proof. destruct pieces as [|p [|q pieces]]; done. Qed.

(** The first piece is empty or starts like the text. *)
Lemma paragraphs_head s :
  match paragraphs s, s with
  | piece :: _, String c _ => piece = "" \/ exists tail, piece = String c tail
  | _, _ => True
  end.
Proof.
  destruct s as [|c rest]; [done|]. cbn [paragraphs].
  destruct rest as [|c' rest'].
  - right. by eexists.
  - destruct (Ascii.eqb c "010" && Ascii.eqb c' "010"); [by left|].
    destruct (paragraphs (String c' rest')); right; by eexists.
Qed.

(** X18: splitting a response into paragraphs loses no text: the
    paragraphs joined by blank lines are the response again; and no
    paragraph holds a blank line of its own. *)
Theorem paragraphs_join_back text :
  String.concat (nl +:+ nl) (paragraphs text) = text
  /\ Forall (fun paragraph => hasBlankLine paragraph = false) (paragraphs text).
Proof.
  apply (paragraphs_cases (fun s l =>
           String.concat (nl +:+ nl) l = s
           /\ Forall (fun paragraph => hasBlankLine paragraph = false) l)).
  - split; [done|]. by constructor.
  - intros rest [Hjoin Hall]. split; [|by constructor].
    pose proof (paragraphs_not_nil rest) as Hne.
    destruct (paragraphs rest); [done|]. cbn [String.concat] in *. by rewrite Hjoin.
  - intros c rest Hc [Hjoin Hall]. split.
    + rewrite concat_extend by apply paragraphs_not_nil. by rewrite Hjoin.
    + pose proof (paragraphs_head rest) as Hhead.
      destruct (paragraphs rest) as [|piece pieces] eqn:Hpar;
        [by repeat constructor|].
      apply Forall_cons in Hall as [Hpiece Hall]. cbn [extend].
      constructor; [|done]. cbn [hasBlankLine].
      destruct piece as [|c' tail]; [done|]. rewrite Hpiece, orb_false_r.
      destruct rest as [|c'' rest'']; [by cbn in Hpar|].
      destruct Hhead as [|[tail' [= <- _]]]; [done|].
      destruct Hc as [Hc | Hc].
      * by destruct (Ascii.eqb_spec c "010").
      * destruct (Ascii.eqb_spec c' "010") as [-> | ?]; [|by rewrite andb_false_r].
        by destruct (Hc rest'').
Qed.

Lemma omap_formatParagraph_length (pieces : list string) :
  length (omap formatParagraph pieces)
  = length (filter (fun p => blank p = false) pieces).
Proof.
  induction pieces as [|p pieces IH]; [done|].
  cbn [omap list_omap]. unfold formatParagraph at 1.
  destruct (blank p) eqn:Hp.
  - rewrite filter_cons_False by congruence. exact IH.
  - rewrite filter_cons_True by done.
    destruct (matchAt numberedPattern p) as [[? [|? [|? [|? [|? ?]]]]]|];
      cbn [length]; by rewrite <- IH.
Qed.

(** X19: a response that is a string is always rendered, never thrown
    on: every paragraph that is not blank gives exactly one block and
    the blank ones give none.  A response that is not a string makes
    [formatResponse] throw. *)
Theorem formatResponse_one_block_per_paragraph response :
  match response with
  | Json (JStr text) =>
      exists blocks,
        formatResponse response = Ok blocks
        /\ length blocks
           = length (filter (fun p => blank p = false) (paragraphs text))
  | _ => formatResponse response = Throw
  end.
Proof.
  destruct response as [|[]|]; try done.
  eexists. split; [done|]. apply omap_formatParagraph_length.
Qed.

Lemma noAsterisk_append (p rest : string) :
  noAsterisk (p +:+ rest) = noAsterisk p && noAsterisk rest.
Proof.
  induction p as [|c p IH]; [done|].
  change (negb (Ascii.eqb c "*") && noAsterisk (p +:+ rest)
          = negb (Ascii.eqb c "*") && noAsterisk p && noAsterisk rest).
  by rewrite IH, andb_assoc.
Qed.

Lemma noAsterisk_suffixOf rest s :
  suffixOf rest s -> noAsterisk s = true -> noAsterisk rest = true.
Proof.
  intros [p ->]. rewrite noAsterisk_append. by intros [_ ?]%andb_true_iff.
Qed.

Lemma strip_asterisk s : noAsterisk s = true -> strip (Literal "*") s = None.
Proof.
  destruct s as [|c s]; [done|]. cbn. by destruct (Ascii.eqb c "*").
Qed.

(** A match fails when the continuation fails at every suffix. *)
Lemma backtrack_None r fuel s captures k :
  (forall s' captures', suffixOf s' s -> k s' captures' = None) ->
  backtrack r fuel s captures k = None.
Proof.
  intros Hk. destruct (backtrack r fuel s captures k) as [result|] eqn:H; [|done].
  apply backtrack_Some in H as (s' & c' & Hs' & H & _).
  by rewrite Hk in H.
Qed.

Lemma asterisk_after_three r1 r2 r3 tail fuel s captures k :
  noAsterisk s = true ->
  backtrack (Seq r1 (Seq r2 (Seq r3 (Seq (lit "*") tail)))) fuel s captures k = None.
Proof.
  intros Hs. cbn [backtrack].
  apply backtrack_None. intros s1 c1 Hs1.
  apply backtrack_None. intros s2 c2 Hs2.
  apply backtrack_None. intros s3 c3 Hs3.
  unfold lit. cbn [backtrack]. rewrite strip_asterisk; [done|].
  eauto using noAsterisk_suffixOf.
Qed.

(** Either pattern needs an asterisk in the text. *)
Lemma numberedPattern_needs_asterisk s :
  noAsterisk s = true -> matchAt numberedPattern s = None.
Proof.
  intros Hs. unfold matchAt, numberedPattern, sequence. cbn [foldr].
  by apply asterisk_after_three.
Qed.

Lemma boldPattern_needs_asterisk s :
  noAsterisk s = true -> matchAt boldPattern s = None.
Proof.
  intros Hs. unfold matchAt, boldPattern, sequence. cbn [foldr backtrack lit].
  by rewrite strip_asterisk.
Qed.

Lemma splitFrom_without_asterisk fuel : forall pending s,
  noAsterisk s = true ->
  splitFrom boldPattern fuel pending s = [pending +:+ s].
Proof.
  induction fuel as [|fuel IH]; intros pending s Hs; [done|]. cbn [splitFrom].
  destruct s as [|c rest]; [by rewrite append_empty_r|].
  rewrite boldPattern_needs_asterisk by done.
  rewrite IH, append_assoc; [done|].
  cbn in Hs. by apply andb_true_iff in Hs as [_ ?].
Qed.

Lemma formatParagraph_without_asterisk p :
  noAsterisk p = true ->
  formatParagraph p = if blank p then None else Some (Paragraph [Plain p]).
Proof.
  intros Hp. unfold formatParagraph. destruct (blank p) eqn:Hblank; [done|].
  rewrite numberedPattern_needs_asterisk by done.
  destruct p as [|c rest]; [done|]. unfold split.
  rewrite splitFrom_without_asterisk by done. cbn [map String.append].
  cbn [noAsterisk] in Hp. apply andb_true_iff in Hp as [Hc _].
  apply negb_true_iff, Ascii.eqb_neq in Hc.
  change ("" +:+ String c rest) with (String c rest).
  unfold formatPart, startsWith. cbn [String.prefix].
  by destruct (ascii_dec "*" c) as [<- | _].
Qed.

Lemma paragraphs_without_asterisk s :
  noAsterisk s = true -> Forall (fun p => noAsterisk p = true) (paragraphs s).
Proof.
  apply (paragraphs_cases (fun s l =>
           noAsterisk s = true -> Forall (fun p => noAsterisk p = true) l)).
  - by repeat constructor.
  - intros rest IH Hs. constructor; [done|]. by apply IH.
  - intros c rest _ IH Hs. cbn in Hs. apply andb_true_iff in Hs as [Hc Hrest].
    specialize (IH Hrest). destruct IH as [|piece pieces Hpiece Hall]; cbn [extend].
    + repeat constructor. cbn. by rewrite Hc.
    + constructor; [|done]. cbn. by rewrite Hc, Hpiece.
Qed.

(** X20: a response without any asterisk is shown as it is: every
    paragraph that is not blank becomes one paragraph of a single plain
    run holding the paragraph's text; nothing is emphasized, numbered or
    reworded. *)
Theorem plain_text_is_shown_unchanged text :
  noAsterisk text = true ->
  formatResponse (Json (JStr text)) = Ok (plainBlocks text).
Proof.
  intros Htext. unfold formatResponse, plainBlocks. f_equal.
  pose proof (paragraphs_without_asterisk text Htext) as Hall.
  induction Hall as [|p pieces Hp _ IH]; [done|].
  cbn [omap list_omap]. rewrite formatParagraph_without_asterisk by done.
  destruct (blank p) eqn:Hblank.
  - rewrite filter_cons_False by congruence. exact IH.
  - rewrite filter_cons_True by done. cbn [map]. by rewrite <- IH.
Qed.

Lemma plain_text_is_shown_unchanged_witness :
  formatResponse (Json (JStr warningText)) = Ok (plainBlocks warningText).
Proof.
  apply plain_text_is_shown_unchanged. reflexivity.
Defined.

(** A greedy star over a class takes the whole run of the class when the
    continuation accepts what follows the run. *)
Lemma star_greedy_run class p : forall fuel rest captures k result,
  allOf class p ->
  strip class rest = None ->
  String.length p < fuel ->
  k rest captures = Some result ->
  backtrack (Star true (Class class)) fuel (p +:+ rest) captures k = Some result.
Proof.
  induction p as [|a p IH]; intros fuel rest captures k result Hp Hrest Hfuel Hk;
    (destruct fuel as [|fuel]; [cbn in Hfuel; lia|]).
  - change ("" +:+ rest) with rest. cbn [backtrack]. cbn zeta.
    rewrite Hrest. cbn [orElse]. exact Hk.
  - destruct Hp as [Ha Hp]. cbn in Hfuel.
    pose proof (IH fuel rest captures k result Hp Hrest ltac:(lia) Hk) as Hrec.
    cbn [backtrack] in Hrec.
    change (String a p +:+ rest) with (String a (p +:+ rest)).
    cbn [backtrack]. cbn zeta. rewrite Ha.
    replace (String.length (p +:+ rest) <? String.length (String a (p +:+ rest)))%nat
      with true by (symmetry; apply Nat.ltb_lt; cbn; lia).
    rewrite Hrec. done.
Qed.

(** A lazy star over a class stops at the first place where the
    continuation accepts. *)
Lemma star_lazy_run class p : forall fuel rest captures k result,
  allOf class p ->
  (forall t, suffixOf t p -> t <> "" -> k (t +:+ rest) captures = None) ->
  String.length p < fuel ->
  k rest captures = Some result ->
  backtrack (Star false (Class class)) fuel (p +:+ rest) captures k = Some result.
Proof.
  induction p as [|a p IH]; intros fuel rest captures k result Hp Hfail Hfuel Hk;
    (destruct fuel as [|fuel]; [cbn in Hfuel; lia|]).
  - change ("" +:+ rest) with rest. cbn [backtrack]. cbn zeta.
    rewrite Hk. done.
  - destruct Hp as [Ha Hp]. cbn in Hfuel.
    assert (forall t, suffixOf t p -> t <> "" -> k (t +:+ rest) captures = None) as Hfail'.
    { intros t Ht. apply Hfail. eauto using suffixOf_trans, suffixOf_tail. }
    pose proof (IH fuel rest captures k result Hp Hfail' ltac:(lia) Hk) as Hrec.
    cbn [backtrack] in Hrec.
    pose proof (Hfail (String a p) (suffixOf_refl _) ltac:(done)) as Hhere.
    change (String a p +:+ rest) with (String a (p +:+ rest)) in *.
    cbn [backtrack]. cbn zeta. rewrite Hhere, Ha. cbn [orElse].
    replace (String.length (p +:+ rest) <? String.length (String a (p +:+ rest)))%nat
      with true by (symmetry; apply Nat.ltb_lt; cbn; lia).
    exact Hrec.
Qed.

Lemma append_cons a (s t : string) : String a s +:+ t = String a (s +:+ t).
Proof. done. Qed.

Lemma consumed_append (p rest : string) : consumed (p +:+ rest) rest = p.
Proof.
  unfold consumed. rewrite length_append.
  replace (String.length p + String.length rest - String.length rest)
    with (String.length p) by lia.
  apply substring_prefix.
Qed.

Lemma backtrack_Seq r1 r2 fuel s captures k :
  backtrack (Seq r1 r2) fuel s captures k
  = backtrack r1 fuel s captures (fun s' captures' => backtrack r2 fuel s' captures' k).
Proof. done. Qed.

Lemma backtrack_lit a fuel s captures k :
  backtrack (lit a) fuel (String a s) captures k = k s captures.
Proof. cbn. by rewrite Ascii.eqb_refl. Qed.

Lemma allOf_Any s : allOf Any s.
Proof. induction s; by cbn. Qed.

(** A captured [class+] takes the whole run of the class. *)
Lemma group_greedy_plus class a p fuel rest captures k result :
  allOf class (String a p) ->
  strip class rest = None ->
  String.length (String a p) < fuel ->
  k rest (captures ++ [String a p]) = Some result ->
  backtrack (Group (plus true (Class class))) fuel (String a p +:+ rest) captures k
  = Some result.
Proof.
  intros [Ha Hp] Hrest Hfuel Hk. unfold plus.
  change (backtrack (Group ?r) fuel ?s captures k)
    with (backtrack r fuel s captures
            (fun s' captures' => k s' (captures' ++ [consumed s s']))).
  rewrite backtrack_Seq. rewrite append_cons. cbn [backtrack]. rewrite Ha.
  apply star_greedy_run; try done; [cbn in Hfuel; lia|].
  rewrite <- append_cons, consumed_append. exact Hk.
Qed.

(** A captured [.+?] takes the text up to the first place where the rest
    of the pattern matches. *)
Lemma group_lazy_plus a p fuel rest captures k result :
  (forall t captures', suffixOf t p -> t <> "" -> k (t +:+ rest) captures' = None) ->
  String.length (String a p) < fuel ->
  k rest (captures ++ [String a p]) = Some result ->
  backtrack (Group (plus false (Class Any))) fuel (String a p +:+ rest) captures k
  = Some result.
Proof.
  intros Hfail Hfuel Hk. unfold plus.
  change (backtrack (Group ?r) fuel ?s captures k)
    with (backtrack r fuel s captures
            (fun s' captures' => k s' (captures' ++ [consumed s s']))).
  rewrite backtrack_Seq. rewrite append_cons. cbn [backtrack strip].
  apply star_lazy_run; try done; [apply allOf_Any | | cbn in Hfuel; lia|].
  - intros t Ht Hne. by apply Hfail.
  - rewrite <- append_cons, consumed_append. exact Hk.
Qed.

Lemma strip_asterisk_append t rest :
  t <> "" -> noAsterisk t = true -> strip (Literal "*") (t +:+ rest) = None.
Proof.
  destruct t as [|c t]; [done|]. intros _ Hc. rewrite append_cons.
  cbn in Hc |- *. by destruct (Ascii.eqb c "*").
Qed.

Lemma strip_Space_asterisk t : strip Space ("**" +:+ t) = None.
Proof. rewrite !append_cons. by destruct t as [|b [|c t]]. Qed.

(** The numbered pattern on a paragraph of its shape: a number, a dot,
    spaces, an emphasized title without asterisk, an optional colon,
    spaces, and a description that does not start with white space. *)
Lemma numberedPattern_matches digits ws title colon sp desc :
  digits <> "" -> allOf Digit digits ->
  allOf Space ws ->
  title <> "" -> noAsterisk title = true ->
  (colon = false -> strip (Literal ":") (sp +:+ desc) = None) ->
  allOf Space sp ->
  desc <> "" -> strip Space desc = None ->
  matchAt numberedPattern
    (digits +:+ "." +:+ ws +:+ "**" +:+ title +:+ "**"
     +:+ (if colon then ":" else "") +:+ sp +:+ desc)
  = Some ("", [digits; title; desc]).
Proof.
  intros Hdigits Hdigit Hws Htitle Hstar Hcolon Hsp Hdesc Hfirst.
  unfold matchAt.
  set (whole := digits +:+ _).
  assert (String.length digits + String.length ws + String.length title
          + String.length sp + String.length desc < S (String.length whole)) as Hfuel.
  { subst whole. rewrite !length_append. cbn. lia. }
  subst whole. generalize dependent (S (String.length
    (digits +:+ "." +:+ ws +:+ "**" +:+ title +:+ "**"
     +:+ (if colon then ":" else "") +:+ sp +:+ desc))).
  intros fuel Hfuel.
  unfold numberedPattern, sequence. cbn [foldr].
  destruct digits as [|d digits]; [done|]. destruct title as [|a title]; [done|].
  destruct desc as [|e desc]; [done|]. cbn in Hfuel.
  rewrite backtrack_Seq.
  apply group_greedy_plus; try done; [cbn; lia|]. cbn [app].
  rewrite backtrack_Seq, ?append_cons, backtrack_lit.
  rewrite backtrack_Seq.
  apply (star_greedy_run Space ws); [done | apply strip_Space_asterisk | lia |].
  rewrite backtrack_Seq, ?append_cons, backtrack_lit.
  rewrite backtrack_Seq, backtrack_lit. change ("" +:+ ?x) with x.
  rewrite backtrack_Seq.
  apply group_lazy_plus; [| cbn; lia |].
  { intros t captures' Ht Hne. rewrite backtrack_Seq. unfold lit at 1. cbn [backtrack].
    rewrite strip_asterisk_append; [done..|].
    cbn in Hstar. apply andb_true_iff in Hstar as [_ Hstar].
    eauto using noAsterisk_suffixOf. }
  cbn [app].
  rewrite backtrack_Seq, ?append_cons, backtrack_lit.
  rewrite backtrack_Seq, backtrack_lit. change ("" +:+ ?x) with x.
  rewrite backtrack_Seq.
  assert (forall captures,
    backtrack (Star true (Class Space)) fuel (sp +:+ String e desc) captures
      (fun s' captures' =>
         backtrack (Seq (Group (plus true (Class Any))) (Seq EndOfInput Empty))
           fuel s' captures' (fun rest c => Some (rest, c)))
    = Some ("", captures ++ [String e desc])) as Htail.
  { intros captures. apply (star_greedy_run Space sp); try done; [lia|].
    rewrite backtrack_Seq.
    rewrite <- (append_empty_r (String e desc)) at 1.
    apply group_greedy_plus; try done; [apply allOf_Any | cbn; lia]. }
  cbn [backtrack] in Htail |- *.
  destruct colon.
  - rewrite ?append_cons, backtrack_lit. change ("" +:+ ?x) with x.
    by rewrite Htail.
  - change ("" +:+ ?x) with x. unfold lit at 1. cbn [backtrack].
    rewrite (Hcolon eq_refl). cbn [orElse]. by rewrite Htail.
Qed.

Lemma printable_not_space (n : N) :
  (33 <= n <= 126)%N ->
  asciiSpace n = false
  /\ (forall b, twoByteSpace n b = false)
  /\ (forall b c, threeByteSpace n b c = false).
Proof.
  intros Hn.
  assert ((n <=? 13)%N = false) as H13 by (apply N.leb_gt; lia).
  assert (forall m, (126 < m)%N -> (n =? m)%N = false) as Hne
    by (intros m Hm; apply N.eqb_neq; lia).
  assert ((n =? 32)%N = false) as H32 by (apply N.eqb_neq; lia).
  unfold asciiSpace, twoByteSpace, threeByteSpace.
  rewrite H13, H32, !Hne by lia. by rewrite andb_false_r.
Qed.

Lemma blank_printable a rest :
  (33 <= N_of_ascii a <= 126)%N -> blank (String a rest) = false.
Proof.
  intros Ha. destruct (printable_not_space _ Ha) as (H1 & H2 & H3).
  cbn [blank]. rewrite H1. destruct rest as [|b [|c rest]]; [done| |].
  - by rewrite H2.
  - by rewrite H2, H3.
Qed.

Lemma digit_code a : (forall t, strip Digit (String a t) = Some t) ->
  (48 <= N_of_ascii a <= 57)%N.
Proof.
  intros H. specialize (H ""). cbn in H.
  destruct (N.leb_spec 48 (N_of_ascii a)), (N.leb_spec (N_of_ascii a) 57);
    done.
Qed.

Lemma string_of_uint_digits d : allOf Digit (NilEmpty.string_of_uint d).
Proof. induction d; cbn; auto. Qed.

Lemma decimal_digits n : allOf Digit (decimal n) /\ decimal n <> "".
Proof.
  split; [apply string_of_uint_digits|]. unfold decimal.
  pose proof (DecimalNat.Unsigned.to_of (Nat.to_uint n)) as H.
  rewrite DecimalNat.Unsigned.of_to in H.
  pose proof (DecimalFacts.unorm_nonnil (Nat.to_uint n)) as Hnil.
  rewrite <- H in Hnil. by destruct (Nat.to_uint n).
Qed.

(** X21: a paragraph of the shape the synthesis gives a search result,
    the number, ". **file - Page n** (Relevance: " and whatever follows,
    is rendered as a numbered line: its number, the title "file - Page n"
    emphasized, and as description the text from "(Relevance:" on,
    trimmed.  (The file and the page must hold no asterisk.) *)
Theorem concept_entry_is_numbered_item n file page tail :
  noAsterisk file = true ->
  noAsterisk page = true ->
  formatParagraph (decimal n +:+ ". **" +:+ file +:+ " - Page " +:+ page
                   +:+ "** (Relevance: " +:+ tail)
  = Some (NumberedItem (decimal n) (file +:+ " - Page " +:+ page)
            (trim ("(Relevance: " +:+ tail))).
Proof.
  intros Hfile Hpage. destruct (decimal_digits n) as [Hdigits Hne].
  unfold formatParagraph.
  assert (blank (decimal n +:+ ". **" +:+ file +:+ " - Page " +:+ page
                 +:+ "** (Relevance: " +:+ tail) = false) as ->.
  { destruct (decimal n) as [|d ds]; [done|]. destruct Hdigits as [Hd _].
    apply digit_code in Hd. rewrite append_cons. apply blank_printable. lia. }
  pose proof (numberedPattern_matches (decimal n) " " (file +:+ " - Page " +:+ page)
                false " " ("(Relevance: " +:+ tail)) as Hmatch.
  rewrite !append_assoc in Hmatch.
  assert (matchAt numberedPattern
            (decimal n +:+ ". **" +:+ file +:+ " - Page " +:+ page
             +:+ "** (Relevance: " +:+ tail)
          = Some ("", [decimal n; file +:+ " - Page " +:+ page;
                       "(Relevance: " +:+ tail])) as ->; [|done].
  apply Hmatch; try done.
  - by destruct file.
  - by rewrite !noAsterisk_append, Hfile, Hpage.
Qed.

Lemma concept_entry_is_numbered_item_witness :
  formatParagraph
    (conceptLine 1 {| cr_file := "a.pdf"; cr_page := "3"; cr_score := "0.9";
                      cr_preview := "p" |})
  = Some (NumberedItem "1" "a.pdf - Page 3" ("(Relevance: 0.9)" +:+ nl +:+ "p")).
Proof.
  apply (concept_entry_is_numbered_item 1 "a.pdf" "3" ("0.9)" +:+ nl +:+ "p"));
    reflexivity.
Defined.

(** An asterisk is no white space: a text with one is not blank. *)
Lemma blank_without_asterisk : forall n s,
  String.length s <= n -> blank s = true -> noAsterisk s = true.
Proof.
  induction n as [|n IH]; intros s Hlen Hblank;
    [destruct s; [done|cbn in Hlen; lia]|].
  destruct s as [|a s1]; [done|]. cbn [blank] in Hblank. cbn in Hlen.
  cbn [noAsterisk].
  destruct (asciiSpace (N_of_ascii a)) eqn:Ha.
  { destruct (Ascii.eqb_spec a "*") as [-> | _]; [done|]. apply IH; [lia|done]. }
  destruct s1 as [|b s2]; [done|]. cbn in Hlen. cbn [noAsterisk].
  destruct (twoByteSpace (N_of_ascii a) (N_of_ascii b)) eqn:Hab.
  { destruct (Ascii.eqb_spec a "*") as [-> | _]; [done|].
    destruct (Ascii.eqb_spec b "*") as [-> | _];
      [unfold twoByteSpace in Hab; cbn in Hab; by rewrite andb_false_r in Hab|].
    apply IH; [lia|done]. }
  destruct s2 as [|c s3]; [done|]. cbn in Hlen. cbn [noAsterisk].
  destruct (threeByteSpace (N_of_ascii a) (N_of_ascii b) (N_of_ascii c)) eqn:Habc;
    [|done].
  assert (a <> "*"%char /\ b <> "*"%char /\ c <> "*"%char) as (Hna & Hnb & Hnc).
  { unfold threeByteSpace in Habc.
    repeat split; intros ->; cbn in Habc;
      rewrite ?andb_false_r, ?andb_false_l, ?orb_false_r in Habc; done. }
  apply Ascii.eqb_neq in Hna, Hnb, Hnc. rewrite Hna, Hnb, Hnc.
  apply IH; [lia|done].
Qed.

Lemma blank_with_asterisk pre rest : blank (pre +:+ String "*" rest) = false.
Proof.
  destruct (blank (pre +:+ String "*" rest)) eqn:Hblank; [|done].
  apply (blank_without_asterisk _ _ (le_n _)) in Hblank.
  rewrite noAsterisk_append in Hblank. cbn in Hblank.
  by rewrite andb_false_r in Hblank.
Qed.

(** The numbered pattern needs a digit at the start. *)
Lemma numberedPattern_needs_digit s :
  strip Digit s = None -> matchAt numberedPattern s = None.
Proof.
  intros Hs. unfold matchAt, numberedPattern, sequence, plus.
  cbn [foldr backtrack]. by rewrite Hs.
Qed.

Lemma strip_Digit_append pre rest :
  strip Digit pre = None -> strip Digit (pre +:+ String "*" rest) = None.
Proof. destruct pre as [|c pre]; [done|]. rewrite append_cons. cbn. by destruct (_ && _). Qed.

(** The bold pattern matches at two asterisks only. *)
Lemma boldPattern_needs_asterisk_first c rest :
  c <> "*"%char -> matchAt boldPattern (String c rest) = None.
Proof.
  intros Hc%Ascii.eqb_neq. unfold matchAt, boldPattern, sequence.
  cbn [foldr backtrack lit strip]. by rewrite Hc.
Qed.

(** A split reads on over text without asterisk. *)
Lemma splitFrom_skips pre : forall fuel pending s,
  noAsterisk pre = true ->
  splitFrom boldPattern (String.length pre + fuel) pending (pre +:+ s)
  = splitFrom boldPattern fuel (pending +:+ pre) s.
Proof.
  induction pre as [|c pre IH]; intros fuel pending s Hpre.
  - by rewrite append_empty_r.
  - cbn in Hpre. apply andb_true_iff in Hpre as [Hc Hpre].
    apply negb_true_iff, Ascii.eqb_neq in Hc.
    rewrite append_cons. cbn [String.length Nat.add splitFrom].
    rewrite boldPattern_needs_asterisk_first by done.
    rewrite IH by done. by rewrite append_assoc.
Qed.

Lemma asciiLine_spec b :
  asciiLine b = true -> allOf NotNewline b /\ noAsterisk b = true.
Proof.
  induction b as [|a b IH]; [done|]. cbn [asciiLine allOf noAsterisk].
  intros (((Hlow & Hhigh)%andb_true_iff & Ha)%andb_true_iff & Hb)%andb_true_iff.
  apply N.leb_le in Hlow, Hhigh. destruct (IH Hb) as [Hall Hstar].
  rewrite Ha, Hstar. repeat split; [|done].
  intros t. cbn [strip].
  replace (N_of_ascii a =? 10)%N with false by (symmetry; apply N.eqb_neq; lia).
  replace (N_of_ascii a =? 13)%N with false by (symmetry; apply N.eqb_neq; lia).
  replace (N_of_ascii a =? 226)%N with false by (symmetry; apply N.eqb_neq; lia).
  by destruct t as [|x [|y t]].
Qed.

(** The bold pattern on a span of its shape: the span is captured and the
    text after it is left. *)
Lemma boldPattern_matches b post :
  asciiLine b = true ->
  matchAt boldPattern ("**" +:+ b +:+ "**" +:+ post)
  = Some (post, ["**" +:+ b +:+ "**"]).
Proof.
  intros [Hall Hstar]%asciiLine_spec. unfold matchAt.
  assert (String.length b < S (String.length ("**" +:+ b +:+ "**" +:+ post))) as Hfuel.
  { rewrite !length_append. cbn. lia. }
  revert Hfuel. generalize (S (String.length ("**" +:+ b +:+ "**" +:+ post))).
  intros fuel Hfuel. unfold boldPattern, sequence. cbn [foldr].
  change (backtrack (Group ?r) fuel ?s [] ?k)
    with (backtrack r fuel s [] (fun s' captures' => k s' (captures' ++ [consumed s s']))).
  rewrite backtrack_Seq, !append_cons, backtrack_lit.
  rewrite backtrack_Seq, backtrack_lit. change ("" +:+ ?x) with x.
  rewrite backtrack_Seq.
  apply star_lazy_run; try done.
  - intros t Ht Hne. rewrite backtrack_Seq. unfold lit at 1. cbn [backtrack].
    rewrite strip_asterisk_append; [done..|]. eauto using noAsterisk_suffixOf.
  - rewrite backtrack_Seq, ?append_cons, backtrack_lit.
    rewrite backtrack_Seq, backtrack_lit. change ("" +:+ ?x) with x.
    cbn [backtrack app].
    change (String "*" (String "*" (b +:+ String "*" (String "*" post))))
      with ("**" +:+ b +:+ "**" +:+ post).
    rewrite <- (append_assoc b "**" post), <- (append_assoc "**" (b +:+ "**") post).
    by rewrite consumed_append.
Qed.

Lemma split_emphasized pre b post :
  noAsterisk pre = true -> asciiLine b = true -> noAsterisk post = true ->
  split boldPattern (pre +:+ "**" +:+ b +:+ "**" +:+ post)
  = [pre; "**" +:+ b +:+ "**"; post].
Proof.
  intros Hpre Hb Hpost. unfold split.
  assert (exists fuel, 2 * String.length (pre +:+ "**" +:+ b +:+ "**" +:+ post) + 1
                       = String.length pre + S fuel) as [fuel ->].
  { exists (String.length pre + 2 * String.length ("**" +:+ b +:+ "**" +:+ post)).
    rewrite !length_append. lia. }
  destruct (pre +:+ "**" +:+ b +:+ "**" +:+ post) as [|c rest] eqn:Hwhole.
  { destruct pre; done. }
  rewrite <- Hwhole, splitFrom_skips by done. change ("" +:+ pre) with pre.
  change ("**" +:+ b +:+ "**" +:+ post) with (String "*" ("*" +:+ b +:+ "**" +:+ post)).
  cbn [splitFrom].
  change (String "*" ("*" +:+ b +:+ "**" +:+ post)) with ("**" +:+ b +:+ "**" +:+ post).
  rewrite boldPattern_matches by done.
  replace (String.length post =? _)%nat with false
    by (symmetry; apply Nat.eqb_neq; rewrite !length_append; cbn; lia).
  rewrite andb_false_r. rewrite splitFrom_without_asterisk by done. done.
Qed.

Lemma substring_skip (p : string) : forall n q,
  substring (String.length p) n (p +:+ q) = substring 0 n q.
Proof. induction p as [|c p IH]; intros n q; [done|]. rewrite append_cons. apply IH. Qed.

(** A piece between two pairs of asterisks is shown emphasized, without
    them. *)
Lemma formatPart_emphasized b : formatPart ("**" +:+ b +:+ "**") = Bold b.
Proof.
  unfold formatPart.
  assert (startsWith "**" ("**" +:+ b +:+ "**") = true) as ->.
  { unfold startsWith.
    change ("**" +:+ b +:+ "**") with (String "*" (String "*" (b +:+ "**"))).
    cbn [String.prefix]. destruct (ascii_dec "*" "*"); [|done].
    by destruct (b +:+ "**"). }
  assert (endsWith "**" ("**" +:+ b +:+ "**") = true) as ->.
  { unfold endsWith. rewrite <- (append_assoc "**" b "**").
    rewrite length_append.
    replace (String.length ("**" +:+ b) + String.length "**" - String.length "**")
      with (String.length ("**" +:+ b)) by lia.
    rewrite substring_skip. apply andb_true_iff. split; [apply Nat.leb_le; cbn; lia|done]. }
  cbn [andb]. f_equal. unfold slice. rewrite !length_append.
  replace (String.length "**" + (String.length b + String.length "**") - 2 - 2)
    with (String.length b) by (cbn; lia).
  etrans; [apply (substring_skip "**" (String.length b) (b +:+ "**"))|].
  apply substring_prefix.
Qed.

Lemma formatPart_plain s : noAsterisk s = true -> formatPart s = Plain s.
Proof.
  intros Hs. unfold formatPart, startsWith.
  destruct s as [|c s]; [done|]. cbn in Hs. apply andb_true_iff in Hs as [Hc _].
  apply negb_true_iff, Ascii.eqb_neq in Hc. cbn [String.prefix].
  by destruct (ascii_dec "*" c) as [<- | _].
Qed.

(** X22: a paragraph with one span between two pairs of asterisks, that
    does not start with a digit, is rendered as three runs: the text
    before the span as it is, the span emphasized without its asterisks,
    and the text after it as it is.  The runs before and after are kept
    even when they are empty.  (The span is printable ASCII without
    asterisk; the text around it holds no asterisk.) *)
Theorem emphasized_span_is_rendered_bold pre b post :
  noAsterisk pre = true ->
  strip Digit pre = None ->
  asciiLine b = true ->
  noAsterisk post = true ->
  formatParagraph (pre +:+ "**" +:+ b +:+ "**" +:+ post)
  = Some (Paragraph [Plain pre; Bold b; Plain post]).
Proof.
  intros Hpre Hdigit Hb Hpost. unfold formatParagraph.
  rewrite split_emphasized by done.
  change ("**" +:+ b +:+ "**" +:+ post) with (String "*" ("*" +:+ b +:+ "**" +:+ post)).
  rewrite blank_with_asterisk, numberedPattern_needs_digit
    by (by apply strip_Digit_append).
  cbn [map]. by rewrite formatPart_emphasized, !formatPart_plain.
Qed.

Lemma emphasized_span_is_rendered_bold_witness :
  formatParagraph ("File " +:+ "**" +:+ "a.pdf" +:+ "**" +:+ " is ready")
  = Some (Paragraph [Plain "File "; Bold "a.pdf"; Plain " is ready"]).
Proof.
  apply emphasized_span_is_rendered_bold; reflexivity.
Defined.

(** ** From the reply to the rendered message *)

(** X23: rendering the response of a successful query throws only when
    the response is the payload's own [response] property and that is no
    string: the tag is then none of the four whose response the client
    puts together itself.  A response put together by the client, and the
    stringified payload, are always rendered. *)
Theorem unrenderable_response_is_payload_own r v :
  queryOutcome r = Ok v ->
  formatResponse v = Throw ->
  exists ok data t,
    r = HttpReply ok (Some data)
    /\ getProp data "type" = Ok t
    /\ isType t "full_pdf_summary" = false /\ isType t "page_summary" = false
    /\ isType t "concept_search" = false /\ isType t "serp_fallback" = false
    /\ getProp data "response" = Ok v
    /\ ~ isText v.
Proof.
  destruct r as [|ok [data|]]; [done| |done]. cbn [queryOutcome].
  intros Hsynth Hrender. exists ok, data.
  unfold responseText in Hsynth.
  destruct (getProp data "type") as [t|]; [|done]. cbn [bind] in Hsynth.
  exists t. split; [done|]. split; [done|].
  destruct (isType t "full_pdf_summary").
  { destruct (getProp data "summaries") as [s|]; [|done]. cbn [bind] in Hsynth.
    destruct (callMap s fullSummaryBlock); [|done]. by injection Hsynth as <-. }
  destruct (isType t "page_summary").
  { destruct (getProp data "summaries") as [s|]; [|done]. cbn [bind] in Hsynth.
    destruct (callMap s pageSummaryBlock); [|done]. by injection Hsynth as <-. }
  destruct (isType t "concept_search").
  { destruct (preamble data _); [|done]. cbn [bind] in Hsynth.
    destruct (getProp data "results") as [s|]; [|done]. cbn [bind] in Hsynth.
    destruct (callMap s conceptItem); [|done]. by injection Hsynth as <-. }
  destruct (isType t "serp_fallback").
  { destruct (preamble data _); [|done]. cbn [bind] in Hsynth.
    destruct (getProp data "serp_results") as [s|]; [|done]. cbn [bind] in Hsynth.
    destruct (if nullish s then _ else _) as [listing|]; [|done]. cbn [bind] in Hsynth.
    destruct (if truthy listing then _ else _); [|done]. by injection Hsynth as <-. }
  assert (~ isText v) as Hno by (intros [text ->]; done).
  repeat split; try done.
  destruct (isType t "error"); [done|].
  destruct (getProp data "response") as [p|]; [|done]. cbn [bind] in Hsynth.
  destruct (truthy p); injection Hsynth as <-; [done|]. by destruct Hno; eexists.
Qed.

Lemma unrenderable_response_is_payload_own_witness :
  exists ok data t,
    HttpReply true (Some (JObj [("type", JStr "error")])) = HttpReply ok (Some data)
    /\ getProp data "type" = Ok t
    /\ isType t "full_pdf_summary" = false /\ isType t "page_summary" = false
    /\ isType t "concept_search" = false /\ isType t "serp_fallback" = false
    /\ getProp data "response" = Ok Undefined
    /\ ~ isText Undefined.
Proof.
  apply unrenderable_response_is_payload_own; reflexivity.
Defined.
